(** * highcharts option classes: coercive setters, [from_dict] and [to_dict]

    A shallow embedding of the option classes of
    [highcharts/axes/markers.py], [highcharts/pane.py] and
    [highcharts/plot_options/generic.py] (and of one factory of the newer
    [highcharts_core] package): Python values as an inductive type,
    property setters as functions into an exception monad, [from_dict] as a
    function that also returns the mapping it was handed (it pops from it),
    and the evaluation of a class body with its return annotations. *)

From Stdlib Require Import String Ascii List ZArith QArith Bool Lia.
Import ListNotations.
Open Scope string_scope.
Open Scope Z_scope.

Set Implicit Arguments.
Set Warnings "-register-all".

(* ================================================================= *)
(** ** Python values *)

(** The values the option classes handle.  A [dict] keeps its insertion
    order and has string keys; an instance of a class is its class name with
    its attribute dictionary.  A float is carried as the rational it denotes:
    the code tests numbers for zero and for bounds and never computes with
    them.  The floats are therefore the finite ones: [nan] and the
    infinities have no counterpart here, and no property below speaks of
    them. *)
Inductive pyval : Type :=
| PNone
| PBool (b : bool)
| PInt (z : Z)
| PFloat (q : Q)
| PStr (s : string)
| PList (l : list pyval)
| PDict (m : list (string * pyval))
| PObj (cls : string) (attrs : list (string * pyval)).

Definition dict := list (string * pyval).

(** Induction over values that reaches below lists and mappings. *)
Section PyvalInd.
Variable P : pyval -> Prop.
Hypothesis HNone : P PNone.
Hypothesis HBool : forall b, P (PBool b).
Hypothesis HInt : forall z, P (PInt z).
Hypothesis HFloat : forall q, P (PFloat q).
Hypothesis HStr : forall s, P (PStr s).
Hypothesis HList : forall l, Forall P l -> P (PList l).
Hypothesis HDict : forall m, Forall (fun kv => P (snd kv)) m -> P (PDict m).
Hypothesis HObj : forall c a, Forall (fun kv => P (snd kv)) a -> P (PObj c a).

Fixpoint pyval_nested_ind (v : pyval) : P v :=
    match v with
    | PNone => HNone
    | PBool b => HBool b
    | PInt z => HInt z
    | PFloat q => HFloat q
    | PStr s => HStr s
    | PList l =>
        HList ((fix go (l : list pyval) : Forall P l :=
                  match l with
                  | [] => Forall_nil _
                  | x :: l' => Forall_cons x (pyval_nested_ind x) (go l')
                  end) l)
    | PDict m =>
        HDict ((fix go (m : dict) : Forall (fun kv => P (snd kv)) m :=
                  match m with
                  | [] => Forall_nil _
                  | kv :: m' =>
                      @Forall_cons _ (fun kv => P (snd kv)) kv m'
                        (pyval_nested_ind (snd kv)) (go m')
                  end) m)
    | PObj c a =>
        HObj c ((fix go (m : dict) : Forall (fun kv => P (snd kv)) m :=
                   match m with
                   | [] => Forall_nil _
                   | kv :: m' =>
                       @Forall_cons _ (fun kv => P (snd kv)) kv m'
                         (pyval_nested_ind (snd kv)) (go m')
                   end) a)
    end.
End PyvalInd.

(** [bool(value)]: [None], [False], zero, the empty string, list and dict
    are falsy; an instance is truthy. *)
Definition truthy (v : pyval) : bool :=
  match v with
  | PNone => false
  | PBool b => b
  | PInt z => negb (z =? 0)
  | PFloat q => negb (Qnum q =? 0)
  | PStr s => negb (s =? "")%string
  | PList l => match l with [] => false | _ => true end
  | PDict m => match m with [] => false | _ => true end
  | PObj _ _ => true
  end.

Definition py_not (v : pyval) : bool := negb (truthy v).

(** [value is None], [value is False], [value == ''] *)
Definition is_None (v : pyval) : bool :=
  match v with PNone => true | _ => false end.
Definition is_False (v : pyval) : bool :=
  match v with PBool false => true | _ => false end.
Definition eq_empty_str (v : pyval) : bool :=
  match v with PStr s => (s =? "")%string | _ => false end.

(** [isinstance(value, cls)] by class name. *)
Definition isinstance (v : pyval) (cls : string) : bool :=
  match v with PObj c _ => (c =? cls)%string | _ => false end.
Definition is_dict (v : pyval) : bool :=
  match v with PDict _ => true | _ => false end.
Definition is_str (v : pyval) : bool :=
  match v with PStr _ => true | _ => false end.

(** *** dict operations *)

Fixpoint dict_get (m : dict) (k : string) : option pyval :=
  match m with
  | [] => None
  | (k', v) :: m' => if (k' =? k)%string then Some v else dict_get m' k
  end.

Definition dict_has (m : dict) (k : string) : bool :=
  match dict_get m k with Some _ => true | None => false end.

(** [m.get(k)] and [m.get(k, d)] *)
Definition get_or (m : dict) (k : string) (d : pyval) : pyval :=
  match dict_get m k with Some v => v | None => d end.
Definition get (m : dict) (k : string) : pyval := get_or m k PNone.

Definition dict_remove (m : dict) (k : string) : dict :=
  filter (fun kv => negb (fst kv =? k)%string) m.

(** [m.pop(k, d)]: the value under [k] (or [d]) and the mapping without
    [k]. *)
Definition pop (m : dict) (k : string) (d : pyval) : pyval * dict :=
  (get_or m k d, dict_remove m k).

Definition keys (m : dict) : list string := map fst m.

Definition str_in (s : string) (l : list string) : bool :=
  existsb (String.eqb s) l.

(** [m] without the entries under the keys [ks]. *)
Definition without (ks : list string) (m : dict) : dict :=
  filter (fun kv => negb (str_in (fst kv) ks)) m.

(** [needle in value]: key membership on a dict, substring on a str. *)
Definition str_contains (needle hay : string) : bool :=
  match index 0 needle hay with Some _ => true | None => false end.

Definition py_in (needle : string) (v : pyval) : bool :=
  match v with
  | PDict m => dict_has m needle
  | PStr s => str_contains needle s
  | _ => false
  end.

(** [s.lower()] on ASCII letters. *)
Definition lower_ascii (c : ascii) : ascii :=
  let n := nat_of_ascii c in
  if ((65 <=? n) && (n <=? 90))%nat then ascii_of_nat (n + 32) else c.

Fixpoint lower (s : string) : string :=
  match s with
  | EmptyString => EmptyString
  | String c s' => String (lower_ascii c) (lower s')
  end.

(* ================================================================= *)
(** ** Exceptions *)

(** The exception classes the setters raise, let through or catch.
    [HighchartsValueError] (the spec's InvalidValue) carries the value its
    message reports ("Value received was: ..."); [EmptyValueError],
    [CannotCoerceError], [MinimumValueError] and [MaximumValueError] are
    validator_collection's; [InvalidNodeShape] is the spec's name for what a
    nested-node slot raises. *)
Inductive exn : Type :=
| ValueError
| TypeError (msg : string)
| NameError (name : string)
| AttributeError (attr : string)
| EmptyValueError
| CannotCoerceError
| MinimumValueError
| MaximumValueError
| HighchartsValueError (received : pyval)
| InvalidNodeShape (received : pyval).

Inductive result (A : Type) : Type :=
| Ok (a : A)
| Raise (e : exn).
Arguments Ok {A} a.
Arguments Raise {A} e.

Definition bind {A B} (c : result A) (k : A -> result B) : result B :=
  match c with Ok a => k a | Raise e => Raise e end.

Notation "x <- c ;; k" := (bind c (fun x => k))
  (at level 61, c at next level, right associativity).

(** [try: body except ValueError: handler] *)
Definition try_except {A} (caught : exn -> bool) (body : result A)
    (handler : result A) : result A :=
  match body with
  | Ok a => Ok a
  | Raise e => if caught e then handler else Raise e
  end.

Definition returns {A} (c : result A) : bool :=
  match c with Ok _ => true | Raise _ => false end.

(* ================================================================= *)
(** ** Collaborators outside these sources *)

(** What the three modules import and these sources do not contain: the
    constant tables of [highcharts.constants], the constructors of the
    nested option classes ([Gradient], [Pattern], [AnimationOptions], ...),
    Python's [float(str)], the coercing halves of validator_collection, and
    whether [except ValueError] catches validator_collection's
    [CannotCoerceError].  Every definition below takes them as [E]; no
    theorem assumes anything about them unless it says so. *)
Record Env : Type := {
  CannotCoerceError_is_ValueError : bool;
  float_of_str : string -> option Q;
  cls_from_json : string -> pyval -> result dict;   (* Cls.from_json(value) *)
  cls_from_dict : string -> dict -> result dict;    (* Cls.from_dict(value) *)
  cls_init : string -> dict -> result dict;         (* Cls( **value ) *)
  DEFAULT_PANE_BACKGROUND : dict;
  SUPPORTED_CURSOR_VALUES : list string;
  SUPPORTED_DASH_STYLE_VALUES : list string;
  is_EnforcedNull : pyval -> bool;                  (* value == EnforcedNull *)
  EnforcedNull : pyval;
  coerce_dict : pyval -> result pyval;
  coerce_integer : pyval -> option Q -> result pyval;
  coerce_iterable : pyval -> result (list pyval);
  checkers_is_iterable : pyval -> bool
}.

(** [except ValueError]: the classes below [ValueError].
    [HighchartsValueError] is taken to derive from it, as its name says
    ([highcharts.errors] is not in these sources); the setters raise it
    outside every [try]. *)
Definition is_ValueError (E : Env) (e : exn) : bool :=
  match e with
  | ValueError | EmptyValueError | MinimumValueError | MaximumValueError => true
  | HighchartsValueError _ => true
  | CannotCoerceError => CannotCoerceError_is_ValueError E
  | TypeError _ | NameError _ | AttributeError _ | InvalidNodeShape _ => false
  end.

(* ================================================================= *)
(** ** validator_collection *)

(** The validators of the third-party package the setters call, after the
    package's documentation: [string] and [numeric], which the properties
    below turn on, in full for the arguments the setters pass; of the others
    the treatment of the empty value, with the coercion left to [E]. *)

Definition empty_or (allow_empty : bool) : result pyval :=
  if allow_empty then Ok PNone else Raise EmptyValueError.

(** [validators.string(value, allow_empty = ...)]: an empty (falsy) value is
    [None] or an [EmptyValueError]; a [str] is returned as it is; anything
    else is not coerced. *)
Definition validators_string (value : pyval) (allow_empty : bool)
    : result pyval :=
  if py_not value then empty_or allow_empty
  else match value with
       | PStr s => Ok (PStr s)
       | _ => Raise CannotCoerceError
       end.

Definition as_Q (v : pyval) : Q :=
  match v with
  | PInt z => inject_Z z
  | PFloat q => q
  | PBool true => 1%Q
  | _ => 0%Q
  end.

Definition check_bounds (minimum maximum : option Q) (v : pyval)
    : result pyval :=
  if match maximum with Some mx => negb (Qle_bool (as_Q v) mx) | None => false end
  then Raise MaximumValueError
  else if match minimum with Some mn => negb (Qle_bool mn (as_Q v)) | None => false end
  then Raise MinimumValueError
  else Ok v.

(** [validators.numeric(value, allow_empty = ..., minimum = ..., maximum =
    ...)]: [None] is the empty value; a [str] goes through [float()]; an
    [int], [float] or [bool] is returned as it is. *)
Definition validators_numeric (E : Env) (value : pyval) (allow_empty : bool)
    (minimum maximum : option Q) : result pyval :=
  match value with
  | PNone => empty_or allow_empty
  | PStr s =>
      match float_of_str E s with
      | Some q => check_bounds minimum maximum (PFloat q)
      | None => Raise CannotCoerceError
      end
  | PInt _ | PFloat _ | PBool _ => check_bounds minimum maximum value
  | _ => Raise CannotCoerceError
  end.

(** [validators.float]: [validators.numeric], then [float()]. *)
Definition validators_float (E : Env) (value : pyval) (allow_empty : bool)
    (minimum maximum : option Q) : result pyval :=
  v <- validators_numeric E value allow_empty minimum maximum ;;
  match v with
  | PNone => Ok PNone
  | _ => Ok (PFloat (as_Q v))
  end.

(** [validators.integer], [validators.dict], [validators.iterable]: the
    empty value as above, the coercion left to [E]. *)
Definition validators_integer (E : Env) (value : pyval) (allow_empty : bool)
    (minimum : option Q) : result pyval :=
  match value with
  | PNone => empty_or allow_empty
  | _ => coerce_integer E value minimum
  end.

Definition validators_dict (E : Env) (value : pyval) (allow_empty : bool)
    : result pyval :=
  if py_not value then empty_or allow_empty else coerce_dict E value.

Definition validators_iterable (E : Env) (value : pyval)
    : result (list pyval) :=
  if py_not value then Raise EmptyValueError else coerce_iterable E value.

(* ================================================================= *)
(** ** highcharts.decorators and highcharts.metaclasses *)

Fixpoint mapM {A B} (f : A -> result B) (l : list A) : result (list B) :=
  match l with
  | [] => Ok []
  | x :: l' => y <- f x ;; ys <- mapM f l' ;; Ok (y :: ys)
  end.

(** Modelled from the spec: [validate_types] and the [class_sensitive]
    decorator of [highcharts.decorators], which is not in these sources.
    "If input is already an instance (or sequence of instances) of the
    expected node type, accept.  If input is a mapping (or sequence of
    mappings), construct node(s) via the node's from_dict factory.  If the
    slot accepts a sequence and input is a single mapping/instance, wrap it
    as a one-element sequence when the slot is declared list-capable; reject
    otherwise.  Unset/falsy input resolves to None." *)
Definition validate_one (E : Env) (cls : string) (x : pyval) : result pyval :=
  if isinstance x cls then Ok x
  else match x with
       | PDict m => a <- cls_from_dict E cls m ;; Ok (PObj cls a)
       | _ => Raise (InvalidNodeShape x)
       end.

Definition validate_types (E : Env) (value : pyval) (cls : string)
    (force_iterable : bool) : result pyval :=
  if py_not value then Ok PNone
  else match value with
       | PList l =>
           if force_iterable
           then xs <- mapM (validate_one E cls) l ;; Ok (PList xs)
           else Raise (InvalidNodeShape value)
       | _ =>
           if force_iterable
           then x <- validate_one E cls value ;; Ok (PList [x])
           else validate_one E cls value
       end.

(** Modelled from the spec: [HighchartsMeta.trim_dict] of
    [highcharts.metaclasses], which is not in these sources.  "Recursively
    removes entries whose value is the nullable-unset sentinel, an empty
    sequence, or an empty mapping -- but explicitly retains boolean false
    and numeric 0 ...  Applied bottom-up so that a parent key whose nested
    mapping trims to empty is itself removed."  Mappings are trimmed
    wherever they sit, below a sequence too; no element of a sequence is
    removed; a nested instance is left in place. *)
Definition is_empty (v : pyval) : bool :=
  match v with
  | PNone => true
  | PList [] => true
  | PDict [] => true
  | _ => false
  end.

Fixpoint trim (v : pyval) : pyval :=
  match v with
  | PDict m =>
      PDict ((fix trim_entries (m : dict) : dict :=
                match m with
                | [] => []
                | (k, x) :: m' =>
                    let x' := trim x in
                    if is_empty x' then trim_entries m'
                    else (k, x') :: trim_entries m'
                end) m)
  | PList l => PList (map trim l)
  | _ => v
  end.

Fixpoint trim_dict (m : dict) : dict :=
  match m with
  | [] => []
  | (k, x) :: m' =>
      let x' := trim x in
      if is_empty x' then trim_dict m' else (k, x') :: trim_dict m'
  end.

(* ================================================================= *)
(** ** The polymorphic colour setter *)

Definition as_dict_of (v : pyval) : dict :=
  match v with PDict m => m | _ => [] end.

Definition new_obj (cls : string) (c : result dict) : result pyval :=
  a <- c ;; Ok (PObj cls a).

(** The body shared, word for word, by [AxisMarker.color],
    [PaneBackground.background_color], [PaneBackground.border_color] and
    [GenericTypeOptions.color]; the result is the value assigned to the
    slot. *)
Definition resolve_color (E : Env) (value : pyval) : result pyval :=
  if py_not value then Ok PNone
  else if isinstance value "Gradient" || isinstance value "Pattern" then
    Ok value
  else if (is_dict value || is_str value) && py_in "linearGradient" value then
    try_except (is_ValueError E)
      (new_obj "Gradient" (cls_from_json E "Gradient" value))
      (if is_dict value
       then new_obj "Gradient" (cls_from_dict E "Gradient" (as_dict_of value))
       else validators_string value false)
  else if is_dict value && py_in "linear_gradient" value then
    new_obj "Gradient" (cls_init E "Gradient" (as_dict_of value))
  else if (is_dict value || is_str value) && py_in "patternOptions" value then
    try_except (is_ValueError E)
      (new_obj "Pattern" (cls_from_json E "Pattern" value))
      (if is_dict value
       then new_obj "Pattern" (cls_from_dict E "Pattern" (as_dict_of value))
       else validators_string value false)
  else if is_dict value && py_in "pattern_options" value then
    new_obj "Pattern" (cls_init E "Pattern" (as_dict_of value))
  else Raise (HighchartsValueError value).

(* ================================================================= *)
(** ** highcharts/axes/markers.py *)

Module AxisMarker.

Record t : Type := {
  _animation : pyval;
  _color : pyval;
  _width : pyval
}.

Section Methods.
Variable E : Env.

Definition animation_setter (self : t) (value : pyval) : result t :=
  if is_False value then
    Ok {| _animation := PBool false; _color := _color self;
          _width := _width self |}
  else
    v <- validate_types E value "AnimationOptions" false ;;
    Ok {| _animation := v; _color := _color self; _width := _width self |}.

Definition color_setter (self : t) (value : pyval) : result t :=
  v <- resolve_color E value ;;
  Ok {| _animation := _animation self; _color := v; _width := _width self |}.

Definition width_setter (self : t) (value : pyval) : result t :=
  v <- validators_numeric E value true None None ;;
  Ok {| _animation := _animation self; _color := _color self; _width := v |}.

Definition __init__ (kwargs : dict) : result t :=
  let self := {| _animation := PNone; _color := PNone; _width := PNone |} in
  self <- animation_setter self (get_or kwargs "animation" PNone) ;;
  self <- color_setter self (get_or kwargs "color" PNone) ;;
  self <- width_setter self (get_or kwargs "width" PNone) ;;
  Ok self.

(** [from_dict(cls, as_dict)]: the node (or the exception) and [as_dict] as
    the call leaves it. *)
Definition from_dict (as_dict : dict) : result t * dict :=
  let '(animation, as_dict) := pop as_dict "animation" PNone in
  let '(color, as_dict) := pop as_dict "color" PNone in
  let '(width, as_dict) := pop as_dict "width" PNone in
  let kwargs :=
    [("animation", animation); ("color", color); ("width", width)] in
  (__init__ kwargs, as_dict).

End Methods.

Definition _to_untrimmed_dict (self : t) : dict :=
  [("animation", _animation self);
   ("color", _color self);
   ("width", _width self)].

(** Modelled from the spec: [to_dict] is inherited from [HighchartsMeta],
    which is not in these sources: "to_dict(node) =
    trim(to_untrimmed_dict(node))". *)
Definition to_dict (self : t) : dict := trim_dict (_to_untrimmed_dict self).

End AxisMarker.

(* ================================================================= *)
(** ** highcharts/pane.py: PaneBackground *)

Module PaneBackground.

Record t : Type := {
  _background_color : pyval;
  _border_color : pyval;
  _border_width : pyval;
  _class_name : pyval;
  _inner_radius : pyval;
  _outer_radius : pyval;
  _shape : pyval
}.

Definition with_background_color (self : t) (v : pyval) : t :=
  {| _background_color := v; _border_color := _border_color self;
     _border_width := _border_width self; _class_name := _class_name self;
     _inner_radius := _inner_radius self; _outer_radius := _outer_radius self;
     _shape := _shape self |}.
Definition with_border_color (self : t) (v : pyval) : t :=
  {| _background_color := _background_color self; _border_color := v;
     _border_width := _border_width self; _class_name := _class_name self;
     _inner_radius := _inner_radius self; _outer_radius := _outer_radius self;
     _shape := _shape self |}.
Definition with_border_width (self : t) (v : pyval) : t :=
  {| _background_color := _background_color self;
     _border_color := _border_color self;
     _border_width := v; _class_name := _class_name self;
     _inner_radius := _inner_radius self; _outer_radius := _outer_radius self;
     _shape := _shape self |}.
Definition with_class_name (self : t) (v : pyval) : t :=
  {| _background_color := _background_color self;
     _border_color := _border_color self;
     _border_width := _border_width self; _class_name := v;
     _inner_radius := _inner_radius self; _outer_radius := _outer_radius self;
     _shape := _shape self |}.
Definition with_inner_radius (self : t) (v : pyval) : t :=
  {| _background_color := _background_color self;
     _border_color := _border_color self;
     _border_width := _border_width self; _class_name := _class_name self;
     _inner_radius := v; _outer_radius := _outer_radius self;
     _shape := _shape self |}.
Definition with_outer_radius (self : t) (v : pyval) : t :=
  {| _background_color := _background_color self;
     _border_color := _border_color self;
     _border_width := _border_width self; _class_name := _class_name self;
     _inner_radius := _inner_radius self; _outer_radius := v;
     _shape := _shape self |}.
Definition with_shape (self : t) (v : pyval) : t :=
  {| _background_color := _background_color self;
     _border_color := _border_color self;
     _border_width := _border_width self; _class_name := _class_name self;
     _inner_radius := _inner_radius self; _outer_radius := _outer_radius self;
     _shape := v |}.

Section Methods.
Variable E : Env.

Definition background_color_setter (self : t) (value : pyval) : result t :=
  v <- resolve_color E value ;; Ok (with_background_color self v).

Definition border_color_setter (self : t) (value : pyval) : result t :=
  v <- resolve_color E value ;; Ok (with_border_color self v).

Definition border_width_setter (self : t) (value : pyval) : result t :=
  v <- validators_numeric E value true None None ;;
  Ok (with_border_width self v).

Definition class_name_setter (self : t) (value : pyval) : result t :=
  v <- validators_string value true ;; Ok (with_class_name self v).

(** The body shared by [inner_radius] and [outer_radius]: string validation
    first, numeric validation when that raised a [ValueError]. *)
Definition radius_value (value : pyval) : result pyval :=
  if is_None value || eq_empty_str value then Ok PNone
  else
    try_except (is_ValueError E)
      (validators_string value true)
      (validators_numeric E value true None None).

Definition inner_radius_setter (self : t) (value : pyval) : result t :=
  v <- radius_value value ;; Ok (with_inner_radius self v).

Definition outer_radius_setter (self : t) (value : pyval) : result t :=
  v <- radius_value value ;; Ok (with_outer_radius self v).

Definition shape_setter (self : t) (value : pyval) : result t :=
  if py_not value then Ok (with_shape self PNone)
  else
    value <- validators_string value false ;;
    match value with
    | PStr s =>
        let value := lower s in
        if negb (str_in value ["circle"; "solid"; "arc"])
        then Raise (HighchartsValueError (PStr value))
        else Ok (with_shape self (PStr value))
    | _ => Raise (AttributeError "lower")
    end.

Definition default (k : string) : pyval := get (DEFAULT_PANE_BACKGROUND E) k.

Definition __init__ (kwargs : dict) : result t :=
  let self :=
    {| _background_color := PNone; _border_color := PNone;
       _border_width := PNone; _class_name := PNone; _inner_radius := PNone;
       _outer_radius := PNone; _shape := PNone |} in
  self <- background_color_setter self
            (get_or kwargs "background_color" (default "background_color")) ;;
  self <- border_color_setter self
            (get_or kwargs "border_color" (default "border_color")) ;;
  self <- border_width_setter self
            (get_or kwargs "border_width" (default "border_width")) ;;
  self <- class_name_setter self
            (get_or kwargs "class_name" (default "class_name")) ;;
  self <- inner_radius_setter self
            (get_or kwargs "inner_radius" (default "inner_radius")) ;;
  self <- outer_radius_setter self
            (get_or kwargs "outer_radius" (default "outer_radius")) ;;
  self <- shape_setter self (get_or kwargs "shape" (default "shape")) ;;
  Ok self.

Definition from_dict (as_dict : dict) : result t * dict :=
  let '(background_color, as_dict) :=
    pop as_dict "backgroundColor" (default "background_color") in
  let '(border_color, as_dict) :=
    pop as_dict "borderColor" (default "border_color") in
  let '(border_width, as_dict) :=
    pop as_dict "borderWidth" (default "border_width") in
  let '(class_name, as_dict) :=
    pop as_dict "className" (default "class_name") in
  let '(inner_radius, as_dict) :=
    pop as_dict "innerRadius" (default "inner_radius") in
  let '(outer_radius, as_dict) :=
    pop as_dict "outerRadius" (default "outer_radius") in
  let '(shape, as_dict) := pop as_dict "shape" (default "shape") in
  let kwargs :=
    [("background_color", background_color);
     ("border_color", border_color);
     ("border_width", border_width);
     ("class_name", class_name);
     ("inner_radius", inner_radius);
     ("outer_radius", outer_radius);
     ("shape", shape)] in
  (__init__ kwargs, as_dict).

End Methods.

Definition to_dict (self : t) : dict :=
  let untrimmed :=
    [("backgroundColor", _background_color self);
     ("borderColor", _border_color self);
     ("borderWidth", _border_width self);
     ("className", _class_name self);
     ("innerRadius", _inner_radius self);
     ("outerRadius", _outer_radius self);
     ("shape", _shape self)] in
  trim_dict untrimmed.

End PaneBackground.

(* ================================================================= *)
(** ** highcharts/plot_options/generic.py *)

Module GenericTypeOptions.

(** An instance is its attribute dictionary, ["_accessibility"] to
    ["_visible"]. *)
Definition t := dict.

Fixpoint setattr (self : t) (name : string) (v : pyval) : t :=
  match self with
  | [] => [(name, v)]
  | (k, x) :: rest =>
      if (k =? name)%string then (k, v) :: rest
      else (k, x) :: setattr rest name v
  end.

Definition getattr (self : t) (name : string) : pyval := get self name.

(** [self.name = value] where the class has a property [name]: the
    property's setter runs, and a property without one raises. *)
Definition property_set (name : string)
    (fset : option (t -> pyval -> result t)) (self : t) (value : pyval)
    : result t :=
  match fset with
  | Some f => f self value
  | None => Raise (AttributeError name)
  end.

Definition or_else (v d : pyval) : pyval := if truthy v then v else d.

Section Methods.
Variable E : Env.

(** [@class_sensitive(Cls)] on a setter that stores its argument. *)
Definition class_sensitive (cls attr : string) (self : t) (value : pyval)
    : result t :=
  v <- validate_types E value cls false ;; Ok (setattr self attr v).

Definition bool_setter (attr : string) (self : t) (value : pyval)
    : result t :=
  Ok (setattr self attr (PBool (truthy value))).

Definition string_setter (attr : string) (self : t) (value : pyval)
    : result t :=
  v <- validators_string value true ;; Ok (setattr self attr v).

Definition accessibility_setter :=
  class_sensitive "TypeOptionsAccessibility" "_accessibility".
Definition allow_point_select_setter := bool_setter "_allow_point_select".
Definition animation_setter :=
  class_sensitive "AnimationOptions" "_animation".
Definition class_name_setter := string_setter "_class_name".
Definition clip_setter := bool_setter "_clip".

Definition color_setter (self : t) (value : pyval) : result t :=
  v <- resolve_color E value ;; Ok (setattr self "_color" v).

Definition cursor_setter (self : t) (value : pyval) : result t :=
  if py_not value then Ok (setattr self "_cursor" PNone)
  else
    value <- validators_string value false ;;
    match value with
    | PStr s =>
        let value := lower s in
        if negb (str_in value (SUPPORTED_CURSOR_VALUES E))
        then Raise (HighchartsValueError (PStr value))
        else Ok (setattr self "_cursor" (PStr value))
    | _ => Raise (AttributeError "lower")
    end.

Definition custom_setter (self : t) (value : pyval) : result t :=
  v <- validators_dict E value true ;;
  Ok (setattr self "_custom" (or_else v (PDict []))).

Definition dash_style_setter (self : t) (value : pyval) : result t :=
  if py_not value then Ok (setattr self "_dash_style" PNone)
  else
    value <- validators_string value false ;;
    if negb (match value with
             | PStr s => str_in s (SUPPORTED_DASH_STYLE_VALUES E)
             | _ => false
             end)
    then Raise (HighchartsValueError value)
    else Ok (setattr self "_dash_style" value).

Definition data_labels_setter (self : t) (value : pyval) : result t :=
  if py_not value then Ok (setattr self "_data_labels" PNone)
  else if checkers_is_iterable E value then
    v <- validate_types E value "DataLabel" true ;;
    Ok (setattr self "_data_labels" v)
  else
    v <- validate_types E value "DataLabel" false ;;
    Ok (setattr self "_data_labels" v).

Definition description_setter := string_setter "_description".
Definition enable_mouse_tracking_setter :=
  bool_setter "_enable_mouse_tracking".
Definition events_setter := class_sensitive "SeriesEvents" "_events".
Definition include_in_data_export_setter :=
  bool_setter "_include_in_data_export".

Definition keys_setter (self : t) (value : pyval) : result t :=
  if py_not value then Ok (setattr self "_keys" PNone)
  else
    xs <- validators_iterable E value ;;
    ys <- mapM (fun x => validators_string x false) xs ;;
    Ok (setattr self "_keys" (PList ys)).

Definition label_setter := class_sensitive "SeriesLabel" "_label".
Definition linked_to_setter := string_setter "_linked_to".
Definition marker_setter := class_sensitive "Marker" "_marker".
Definition on_point_setter := class_sensitive "OnPointOptions" "_on_point".

Definition opacity_setter (self : t) (value : pyval) : result t :=
  v <- validators_float E value true (Some 0%Q) (Some 1%Q) ;;
  Ok (setattr self "_opacity" v).

Definition point_setter := class_sensitive "Point" "_point".
Definition point_description_formatter_setter :=
  string_setter "_point_description_formatter".
Definition selected_setter := bool_setter "_selected".

(** [show_checkbox] is declared with [@property] alone: the class body has
    no [@show_checkbox.setter]. *)
Definition show_checkbox_setter : option (t -> pyval -> result t) := None.

Definition show_in_legend_setter := bool_setter "_show_in_legend".
Definition skip_keyboard_navigation_setter :=
  bool_setter "_skip_keyboard_navigation".
Definition states_setter := class_sensitive "States" "_states".
Definition sticky_tracking_setter := bool_setter "_sticky_tracking".

Definition threshold_setter (self : t) (value : pyval) : result t :=
  if is_EnforcedNull E value then
    Ok (setattr self "_threshold" (EnforcedNull E))
  else
    v <- validators_numeric E value true None None ;;
    Ok (setattr self "_threshold" (or_else v (PInt 0))).

Definition tooltip_setter := class_sensitive "Tooltip" "_tooltip".

Definition turbo_threshold_setter (self : t) (value : pyval) : result t :=
  if py_not value then Ok (setattr self "_turbo_threshold" (PInt 0))
  else
    v <- validators_integer E value true (Some 0%Q) ;;
    Ok (setattr self "_turbo_threshold" (or_else v (PInt 0))).

Definition visible_setter := bool_setter "_visible".

Definition slots : list string :=
  ["_accessibility"; "_allow_point_select"; "_animation"; "_class_name";
   "_clip"; "_color"; "_cursor"; "_custom"; "_dash_style"; "_data_labels";
   "_description"; "_enable_mouse_tracking"; "_events";
   "_include_in_data_export"; "_keys"; "_label"; "_linked_to"; "_marker";
   "_on_point"; "_opacity"; "_point"; "_point_description_formatter";
   "_selected"; "_show_checkbox"; "_show_in_legend";
   "_skip_keyboard_navigation"; "_states"; "_sticky_tracking"; "_threshold";
   "_tooltip"; "_turbo_threshold"; "_visible"].

Definition __init__ (kwargs : dict) : result t :=
  let self : t := map (fun a => (a, PNone)) slots in
  let kw k d := get_or kwargs k d in
  self <- property_set "accessibility" (Some accessibility_setter) self
            (kw "accessibility" PNone) ;;
  self <- property_set "allow_point_select" (Some allow_point_select_setter)
            self (kw "allow_point_select" (PBool false)) ;;
  self <- property_set "animation" (Some animation_setter) self
            (kw "animation" PNone) ;;
  self <- property_set "class_name" (Some class_name_setter) self
            (kw "class_name" PNone) ;;
  self <- property_set "clip" (Some clip_setter) self
            (kw "clip" (PBool true)) ;;
  self <- property_set "color" (Some color_setter) self (kw "color" PNone) ;;
  self <- property_set "cursor" (Some cursor_setter) self
            (kw "cursor" PNone) ;;
  self <- property_set "custom" (Some custom_setter) self
            (kw "custom" PNone) ;;
  self <- property_set "dash_style" (Some dash_style_setter) self
            (kw "dash_style" PNone) ;;
  self <- property_set "data_labels" (Some data_labels_setter) self
            (kw "data_labels" PNone) ;;
  self <- property_set "description" (Some description_setter) self
            (kw "description" PNone) ;;
  self <- property_set "enable_mouse_tracking"
            (Some enable_mouse_tracking_setter) self
            (kw "enable_mouse_tracking" (PBool true)) ;;
  self <- property_set "events" (Some events_setter) self
            (kw "events" PNone) ;;
  self <- property_set "include_in_data_export"
            (Some include_in_data_export_setter) self
            (kw "include_in_data_export" PNone) ;;
  self <- property_set "keys" (Some keys_setter) self (kw "keys" PNone) ;;
  self <- property_set "label" (Some label_setter) self (kw "label" PNone) ;;
  self <- property_set "linked_to" (Some linked_to_setter) self
            (kw "linked_to" PNone) ;;
  self <- property_set "marker" (Some marker_setter) self
            (kw "marker" PNone) ;;
  self <- property_set "on_point" (Some on_point_setter) self
            (kw "on_point" PNone) ;;
  self <- property_set "opacity" (Some opacity_setter) self
            (kw "opacity" PNone) ;;
  self <- property_set "point" (Some point_setter) self (kw "point" PNone) ;;
  self <- property_set "point_description_formatter"
            (Some point_description_formatter_setter) self
            (kw "point_description_formatter" PNone) ;;
  self <- property_set "selected" (Some selected_setter) self
            (kw "selected" (PBool false)) ;;
  self <- property_set "show_checkbox" show_checkbox_setter self
            (kw "show_checkbox" (PBool false)) ;;
  self <- property_set "show_in_legend" (Some show_in_legend_setter) self
            (kw "show_in_legend" PNone) ;;
  self <- property_set "skip_keyboard_navigation"
            (Some skip_keyboard_navigation_setter) self
            (kw "skip_keyboard_navigation" PNone) ;;
  self <- property_set "states" (Some states_setter) self
            (kw "states" PNone) ;;
  self <- property_set "sticky_tracking" (Some sticky_tracking_setter) self
            (kw "sticky_tracking" PNone) ;;
  self <- property_set "threshold" (Some threshold_setter) self
            (kw "threshold" PNone) ;;
  self <- property_set "tooltip" (Some tooltip_setter) self
            (kw "tooltip" PNone) ;;
  self <- property_set "turbo_threshold" (Some turbo_threshold_setter) self
            (kw "turbo_threshold" PNone) ;;
  self <- property_set "visible" (Some visible_setter) self
            (kw "visible" (PBool true)) ;;
  Ok self.

End Methods.

(** The dict display of [_get_kwargs_from_dict], entry by entry: keyword,
    external key popped from [as_dict], default. *)
Definition kwargs_table : list (string * string * pyval) :=
  [("accessibility", "accessibility", PNone);
   ("allow_point_select", "allowPointSelect", PBool false);
   ("animation", "animation", PNone);
   ("class_name", "className", PNone);
   ("clip", "clip", PBool true);
   ("color", "color", PNone);
   ("cursor", "cursor", PNone);
   ("custom", "custom", PNone);
   ("dash_style", "dashStyle", PNone);
   ("data_labels", "dataLabels", PNone);
   ("description", "description", PNone);
   ("enable_mouse_tracking", "enableMouseTracking", PBool true);
   ("events", "events", PNone);
   ("include_in_data_export", "includeInDataExport", PNone);
   ("keys", "keys", PNone);
   ("label", "label", PNone);
   ("linked_to", "linkedTo", PNone);
   ("marker", "marker", PNone);
   ("on_point", "onPoint", PNone);
   ("opacity", "opacity", PNone);
   ("point", "point", PNone);
   ("point_description_formatter", "pointDescriptionFormatter", PNone);
   ("selected", "selected", PBool false);
   ("show_checkbox", "showCheckbox", PBool false);
   ("show_in_legend", "showInLegend", PNone);
   ("skip_keyboard_navigation", "skipKeyboardNavigation", PNone);
   ("states", "states", PNone);
   ("sticky_tracking", "stickyTracking", PNone);
   ("threshold", "threshold", PNone);
   ("tooltip", "tooltip", PNone);
   ("turbo_threshold", "turboThreshold", PNone);
   ("visible", "visible", PBool true)].

Fixpoint pop_all (table : list (string * string * pyval)) (as_dict : dict)
    : dict * dict :=
  match table with
  | [] => ([], as_dict)
  | (name, key, d) :: rest =>
      let '(v, as_dict) := pop as_dict key d in
      let '(kwargs, as_dict) := pop_all rest as_dict in
      ((name, v) :: kwargs, as_dict)
  end.

Definition _get_kwargs_from_dict (as_dict : dict) : dict * dict :=
  pop_all kwargs_table as_dict.

Definition from_dict (E : Env) (as_dict : dict) : result t * dict :=
  let '(kwargs, as_dict) := _get_kwargs_from_dict as_dict in
  (__init__ E kwargs, as_dict).

End GenericTypeOptions.

(* ================================================================= *)
(** ** highcharts/pane.py: Pane *)

Module Pane.

Record t : Type := {
  _background : pyval;
  _center : pyval;
  _end_angle : pyval;
  _inner_size : pyval;
  _size : pyval;
  _start_angle : pyval
}.

Definition with_end_angle (self : t) (v : pyval) : t :=
  {| _background := _background self; _center := _center self;
     _end_angle := v; _inner_size := _inner_size self; _size := _size self;
     _start_angle := _start_angle self |}.
Definition with_inner_size (self : t) (v : pyval) : t :=
  {| _background := _background self; _center := _center self;
     _end_angle := _end_angle self; _inner_size := v; _size := _size self;
     _start_angle := _start_angle self |}.
Definition with_size (self : t) (v : pyval) : t :=
  {| _background := _background self; _center := _center self;
     _end_angle := _end_angle self; _inner_size := _inner_size self;
     _size := v; _start_angle := _start_angle self |}.
Definition with_start_angle (self : t) (v : pyval) : t :=
  {| _background := _background self; _center := _center self;
     _end_angle := _end_angle self; _inner_size := _inner_size self;
     _size := _size self; _start_angle := v |}.

Section Methods.
Variable E : Env.

Definition end_angle_setter (self : t) (value : pyval) : result t :=
  v <- validators_numeric E value true None None ;;
  Ok (with_end_angle self v).

Definition inner_size_setter (self : t) (value : pyval) : result t :=
  if py_not value then Ok (with_inner_size self PNone)
  else
    v <- try_except (is_ValueError E)
           (validators_string value false)
           (validators_numeric E value false None None) ;;
    Ok (with_inner_size self v).

Definition size_setter (self : t) (value : pyval) : result t :=
  if py_not value then Ok (with_size self PNone)
  else
    v <- try_except (is_ValueError E)
           (validators_string value false)
           (validators_numeric E value false None None) ;;
    Ok (with_size self v).

Definition start_angle_setter (self : t) (value : pyval) : result t :=
  v <- validators_numeric E value true None None ;;
  Ok (with_start_angle self v).

End Methods.

Definition to_dict (self : t) : dict :=
  let untrimmed :=
    [("background", _background self);
     ("center", _center self);
     ("endAngle", _end_angle self);
     ("innerSize", _inner_size self);
     ("size", _size self);
     ("startAngle", _start_angle self)] in
  trim_dict untrimmed.

End Pane.

(* ================================================================= *)
(** ** highcharts_core/options/series/pictorial.py *)

Module PictorialPaths.

(** [_get_kwargs_from_dict(cls, as_dict)] of the newer package reads with
    [as_dict.get]: the keyword arguments, and [as_dict] as the call leaves
    it. *)
Definition _get_kwargs_from_dict (as_dict : dict) : dict * dict :=
  let kwargs :=
    [("definition", get_or as_dict "definition" PNone);
     ("max", get_or as_dict "max" PNone)] in
  (kwargs, as_dict).

End PictorialPaths.

(* ================================================================= *)
(** ** Executing highcharts/pane.py *)

(** Python evaluates the return annotation of a [def] when the [def]
    statement runs, that is while the class body runs, which is while the
    module is imported.  The annotations of [pane.py] are built from names,
    [a | b], subscription [f[x]] and, twice, a call [f(x)]. *)
Module PyExec.

Inductive expr : Type :=
| Name (id : string)
| BitOr (l r : expr)
| Subscript (f arg : expr)
| Call (f arg : expr).

(** What an annotation evaluates to. *)
Inductive tyval : Type :=
| TClass (name : string)                 (* int, str, Decimal, Gradient ... *)
| TSpecialForm (name : string)           (* typing.Optional *)
| TAlias (name : string)                 (* typing.List *)
| TUnion (l r : tyval)                   (* a | b *)
| TSubscripted (f : string) (arg : tyval)  (* Optional[x], List[x] *)
| TInstance (cls : string).

Definition namespace := list (string * tyval).

Fixpoint lookup (ns : namespace) (id : string) : option tyval :=
  match ns with
  | [] => None
  | (k, v) :: ns' => if (k =? id)%string then Some v else lookup ns' id
  end.

(** [f(x)]: a class is instantiated; [typing.Optional] and [typing.List]
    refuse to be called. *)
Definition call (f : tyval) : result tyval :=
  match f with
  | TClass c => Ok (TInstance c)
  | TSpecialForm n => Raise (TypeError ("Cannot instantiate typing." ++ n))
  | TAlias n =>
      Raise (TypeError ("Type " ++ n ++ " cannot be instantiated"))
  | _ => Raise (TypeError "object is not callable")
  end.

Definition subscript (f arg : tyval) : result tyval :=
  match f with
  | TSpecialForm n | TAlias n => Ok (TSubscripted n arg)
  | _ => Raise (TypeError "object is not subscriptable")
  end.

Definition bit_or (l r : tyval) : result tyval :=
  match l, r with
  | TInstance _, _ | _, TInstance _ =>
      Raise (TypeError "unsupported operand type(s) for |")
  | _, _ => Ok (TUnion l r)
  end.

Fixpoint eval (ns : namespace) (e : expr) : result tyval :=
  match e with
  | Name id =>
      match lookup ns id with
      | Some v => Ok v
      | None => Raise (NameError id)
      end
  | BitOr l r => a <- eval ns l ;; b <- eval ns r ;; bit_or a b
  | Subscript f x => g <- eval ns f ;; a <- eval ns x ;; subscript g a
  | Call f x => g <- eval ns f ;; _ <- eval ns x ;; call g
  end.

(** A [def] of a class body: its name and its return annotation. *)
Record def : Type := { def_name : string; def_returns : option expr }.

Definition exec_def (ns : namespace) (d : def) : result unit :=
  match def_returns d with
  | None => Ok tt
  | Some e => _ <- eval ns e ;; Ok tt
  end.

Fixpoint exec_body (ns : namespace) (body : list def) : result unit :=
  match body with
  | [] => Ok tt
  | d :: rest => _ <- exec_def ns d ;; exec_body ns rest
  end.

Record class_def : Type := { class_name : string; class_body : list def }.

(** A [class] statement: the body runs, then the name is bound. *)
Definition exec_class (ns : namespace) (c : class_def) : result namespace :=
  _ <- exec_body ns (class_body c) ;;
  Ok ((class_name c, TClass (class_name c)) :: ns).

Fixpoint exec_module (ns : namespace) (classes : list class_def)
    : result namespace :=
  match classes with
  | [] => Ok ns
  | c :: rest => ns' <- exec_class ns c ;; exec_module ns' rest
  end.

(** [module.name] after [import module]: nothing when the import raised. *)
Definition module_attr (m : result namespace) (id : string) : option tyval :=
  match m with
  | Ok ns => lookup ns id
  | Raise _ => None
  end.

(** The names [pane.py] imports, and the builtins its annotations use. *)
Definition pane_imports : namespace :=
  [("Optional", TSpecialForm "Optional"); ("List", TAlias "List");
   ("Decimal", TClass "Decimal"); ("Gradient", TClass "Gradient");
   ("Pattern", TClass "Pattern"); ("int", TClass "int");
   ("float", TClass "float"); ("str", TClass "str")].

Definition Optional_ (x : expr) : expr := Subscript (Name "Optional") x.
Definition List_ (x : expr) : expr := Subscript (Name "List") x.
Definition color_ann : expr :=
  Optional_ (BitOr (BitOr (Name "str") (Name "Gradient")) (Name "Pattern")).
Definition numeric_ann : expr :=
  BitOr (BitOr (Name "int") (Name "float")) (Name "Decimal").
Definition numeric_or_str_ann : expr := BitOr numeric_ann (Name "str").

Definition getter (n : string) (ann : expr) : def :=
  {| def_name := n; def_returns := Some ann |}.
Definition plain (n : string) : def :=
  {| def_name := n; def_returns := None |}.

Definition PaneBackground_def : class_def :=
  {| class_name := "PaneBackground";
     class_body :=
       [plain "__init__";
        getter "background_color" color_ann; plain "background_color";
        getter "border_color" color_ann; plain "border_color";
        getter "border_width" (Optional_ numeric_ann); plain "border_width";
        getter "class_name" (Optional_ (Name "str")); plain "class_name";
        getter "inner_radius" (Optional_ numeric_or_str_ann);
        plain "inner_radius";
        getter "outer_radius" (Optional_ numeric_or_str_ann);
        plain "outer_radius";
        getter "shape" (Optional_ (Name "str")); plain "shape";
        plain "from_dict"; plain "to_dict"] |}.

Definition Pane_def : class_def :=
  {| class_name := "Pane";
     class_body :=
       [plain "__init__";
        getter "background" (Optional_ (List_ (Name "PaneBackground")));
        plain "background";
        getter "center" (Optional_ (List_ (BitOr (Name "str") (Name "int"))));
        plain "center";
        getter "end_angle" (Call (Name "Optional") numeric_ann);
        plain "end_angle";
        getter "inner_size" (Optional_ numeric_or_str_ann);
        plain "inner_size";
        getter "size" (Optional_ numeric_or_str_ann); plain "size";
        getter "start_angle" (Call (Name "Optional") numeric_ann);
        plain "start_angle";
        plain "from_dict"; plain "to_dict"] |}.

Definition import_pane : result namespace :=
  exec_module pane_imports [PaneBackground_def; Pane_def].

End PyExec.

(* ================================================================= *)
(** ** Round trips and sample environments *)


(** What parsing makes of a slot that was serialized: a value that was kept
    comes back as it is, a slot that was unset is coerced from the fallback
    [d] the factory pops with. *)
Definition back (coerce : pyval -> result pyval) (d v : pyval)
    : result pyval :=
  if is_None v then coerce d else Ok v.

(** The value [PaneBackground.shape]'s setter stores, and below the one
    [AxisMarker.animation]'s does: the setters' bodies less the assignment
    (lemmas [shape_setter_eq] and [AxisMarker_animation_setter_eq]). *)
Definition shape_value (value : pyval) : result pyval :=
  if py_not value then Ok PNone
  else
    value <- validators_string value false ;;
    match value with
    | PStr s =>
        if negb (str_in (lower s) ["circle"; "solid"; "arc"])
        then Raise (HighchartsValueError (PStr (lower s)))
        else Ok (PStr (lower s))
    | _ => Raise (AttributeError "lower")
    end.

Definition animation_value (E : Env) (value : pyval) : result pyval :=
  if is_False value then Ok (PBool false)
  else validate_types E value "AnimationOptions" false.

(** The node [PaneBackground.from_dict] is shown to return on
    [PaneBackground.to_dict n]. *)
Definition PaneBackground_reparsed (E : Env) (n : PaneBackground.t)
    : result PaneBackground.t :=
  let d := PaneBackground.default E in
  bc <- back (resolve_color E) (d "background_color")
          (PaneBackground._background_color n) ;;
  bo <- back (resolve_color E) (d "border_color")
          (PaneBackground._border_color n) ;;
  bw <- back (fun v => validators_numeric E v true None None)
          (d "border_width") (PaneBackground._border_width n) ;;
  cn <- back (fun v => validators_string v true) (d "class_name")
          (PaneBackground._class_name n) ;;
  ir <- back (PaneBackground.radius_value E) (d "inner_radius")
          (PaneBackground._inner_radius n) ;;
  or <- back (PaneBackground.radius_value E) (d "outer_radius")
          (PaneBackground._outer_radius n) ;;
  sh <- back shape_value (d "shape") (PaneBackground._shape n) ;;
  Ok {| PaneBackground._background_color := bc;
        PaneBackground._border_color := bo;
        PaneBackground._border_width := bw;
        PaneBackground._class_name := cn;
        PaneBackground._inner_radius := ir;
        PaneBackground._outer_radius := or;
        PaneBackground._shape := sh |}.

(** The slots of a [PaneBackground]: how each is read, how its setter
    coerces, and the key of its default. *)
Definition PaneBackground_schema (E : Env)
    : list ((PaneBackground.t -> pyval) * (pyval -> result pyval) * string) :=
  [(PaneBackground._background_color, resolve_color E, "background_color");
   (PaneBackground._border_color, resolve_color E, "border_color");
   (PaneBackground._border_width,
    fun v => validators_numeric E v true None None, "border_width");
   (PaneBackground._class_name,
    fun v => validators_string v true, "class_name");
   (PaneBackground._inner_radius, PaneBackground.radius_value E,
    "inner_radius");
   (PaneBackground._outer_radius, PaneBackground.radius_value E,
    "outer_radius");
   (PaneBackground._shape, shape_value, "shape")].

Definition AxisMarker_schema (E : Env)
    : list ((AxisMarker.t -> pyval) * (pyval -> result pyval) * string) :=
  [(AxisMarker._animation, animation_value E, "animation");
   (AxisMarker._color, resolve_color E, "color");
   (AxisMarker._width,
    fun v => validators_numeric E v true None None, "width")].

(** A node whose every slot holds a value that the slot's setter stores as
    it is: what the constructor returns and what the setters keep. *)
Definition settled {T : Type}
    (schema : list ((T -> pyval) * (pyval -> result pyval) * string))
    (n : T) : Prop :=
  Forall (fun s => let '(slot, coerce, _) := s in
                   coerce (slot n) = Ok (slot n))
         schema.

(** [n'] is [n] with every unset slot coerced from its default. *)
Definition refilled (E : Env) (n n' : PaneBackground.t) : Prop :=
  Forall (fun s =>
            let '(slot, coerce, key) := s in
            if is_None (slot n)
            then coerce (PaneBackground.default E key) = Ok (slot n')
            else slot n' = slot n)
         (PaneBackground_schema E).

Definition PaneBackground_slots : list string :=
  ["background_color"; "border_color"; "border_width"; "class_name";
   "inner_radius"; "outer_radius"; "shape"].

(** [float(s)] on a plain decimal literal: an optional sign, digits, and
    optionally a point and more digits.  The other spellings Python reads
    (exponents, blanks around the number, [inf], [nan]) are not recognised
    here. *)
Definition digit_of (c : ascii) : option Z :=
  let n := nat_of_ascii c in
  if ((48 <=? n) && (n <=? 57))%nat then Some (Z.of_nat (n - 48)) else None.

Fixpoint read_digits (s : string) (acc : Z) (count : nat)
    : Z * nat * string :=
  match s with
  | String c s' =>
      match digit_of c with
      | Some d => read_digits s' (10 * acc + d) (S count)
      | None => (acc, count, s)
      end
  | EmptyString => (acc, count, s)
  end.

Definition float_of_decimal (s : string) : option Q :=
  let '(negative, body) :=
    match s with
    | String "-"%char s' => (true, s')
    | String "+"%char s' => (false, s')
    | _ => (false, s)
    end in
  let signed (q : Q) := if negative then Qopp q else q in
  let '(whole, n_whole, rest) := read_digits body 0 0 in
  match rest with
  | EmptyString =>
      if (n_whole =? 0)%nat then None else Some (signed (whole # 1))
  | String "."%char rest' =>
      let '(all, n_frac, rest'') := read_digits rest' whole 0 in
      match rest'' with
      | EmptyString =>
          if (n_whole + n_frac =? 0)%nat then None
          else Some (signed (all # Z.to_pos (10 ^ Z.of_nat n_frac)))
      | _ => None
      end
  | _ => None
  end.

(** [type(v).__name__] *)
Definition type_name (v : pyval) : string :=
  match v with
  | PNone => "NoneType"
  | PBool _ => "bool"
  | PInt _ => "int"
  | PFloat _ => "float"
  | PStr _ => "str"
  | PList _ => "list"
  | PDict _ => "dict"
  | PObj cls _ => cls
  end.

(** An environment to run examples in, after the libraries the modules
    import.  validator_collection's [CannotCoerceError] is a [TypeError],
    which [except ValueError] does not catch.  [from_json] hands its
    argument to [json.loads]: a mapping is a [TypeError] there, and a string
    that is no JSON document (the examples hand it no other) a
    [JSONDecodeError], which is a [ValueError].  The nested classes accept
    any mapping.  [DEFAULT_PANE_BACKGROUND] holds Highcharts' defaults for
    the border, the class name, the radii and the shape of a pane
    background, and the cursor and dash styles are the ones the docstrings
    list.  Of the coercions, an [int] is an integer, checked against the
    minimum, a [dict] a mapping and a [list] an iterable. *)
Definition sample_env : Env :=
  {| CannotCoerceError_is_ValueError := false;
     float_of_str := float_of_decimal;
     cls_from_json :=
       fun _ v =>
         match v with
         | PStr _ => Raise ValueError
         | _ => Raise (TypeError ("the JSON object must be str, bytes or "
                                  ++ "bytearray, not " ++ type_name v))
         end;
     cls_from_dict := fun _ m => Ok m;
     cls_init := fun _ m => Ok m;
     DEFAULT_PANE_BACKGROUND :=
       [("border_color", PStr "#cccccc"); ("border_width", PInt 1);
        ("class_name", PStr "highcharts-pane"); ("inner_radius", PInt 0);
        ("outer_radius", PStr "105%"); ("shape", PStr "circle")];
     SUPPORTED_CURSOR_VALUES :=
       ["alias"; "all-scroll"; "auto"; "cell"; "col-resize"; "context-menu";
        "copy"; "crosshair"; "default"; "e-resize"; "ew-resize"; "grab";
        "grabbing"; "help"; "move"; "n-resize"; "ne-resize"; "nesw-resize";
        "no-drop"; "none"; "not-allowed"; "ns-resize"; "nw-resize";
        "nwse-resize"; "pointer"; "progress"; "row-resize"; "s-resize";
        "se-resize"; "sw-resize"; "text"; "vertical-text"; "w-resize";
        "wait"; "zoom-in"; "zoom-out"];
     SUPPORTED_DASH_STYLE_VALUES :=
       ["Dash"; "DashDot"; "Dot"; "LongDash"; "LongDashDot";
        "LongDashDotDot"; "ShortDash"; "ShortDashDot"; "ShortDashDotDot";
        "ShortDot"; "Solid"];
     is_EnforcedNull := fun v => isinstance v "EnforcedNullType";
     EnforcedNull := PObj "EnforcedNullType" [];
     coerce_dict :=
       fun v => match v with PDict _ => Ok v | _ => Raise CannotCoerceError end;
     coerce_integer :=
       fun v minimum =>
         match v with
         | PInt _ => check_bounds minimum None v
         | _ => Raise CannotCoerceError
         end;
     coerce_iterable :=
       fun v => match v with PList l => Ok l | _ => Raise CannotCoerceError end;
     checkers_is_iterable :=
       fun v => match v with PList _ => true | _ => false end |}.

Definition blank_PaneBackground : PaneBackground.t :=
  {| PaneBackground._background_color := PNone;
     PaneBackground._border_color := PNone;
     PaneBackground._border_width := PNone;
     PaneBackground._class_name := PNone;
     PaneBackground._inner_radius := PNone;
     PaneBackground._outer_radius := PNone;
     PaneBackground._shape := PNone |}.

(** Keyword arguments that set every slot of a [PaneBackground] to
    [None]; some that set every slot, with the node they build; and the same
    with the border width left unset. *)
Definition unset_kwargs : dict :=
  map (fun k => (k, PNone)) PaneBackground_slots.






(** An [int], a [float] or a [bool]: what [validators.numeric] returns when
    it returns something other than [None]. *)
Definition is_number (v : pyval) : bool :=
  match v with
  | PInt _ | PFloat _ | PBool _ => true
  | _ => false
  end.

Definition blank_AxisMarker : AxisMarker.t :=
  {| AxisMarker._animation := PNone; AxisMarker._color := PNone;
     AxisMarker._width := PNone |}.

Definition blank_Pane : Pane.t :=
  {| Pane._background := PNone; Pane._center := PNone;
     Pane._end_angle := PNone; Pane._inner_size := PNone;
     Pane._size := PNone; Pane._start_angle := PNone |}.

(* ================================================================= *)
(** ** highcharts/series/data/wordcloud.py *)

Module WordcloudData.

(** The dict display of [_get_kwargs_from_dict], entry by entry: keyword,
    external key popped from [as_dict], default. *)
Definition kwargs_table : list (string * string * pyval) :=
  [("accessibility", "accessibility", PNone);
   ("class_name", "className", PNone);
   ("color", "color", PNone);
   ("color_index", "colorIndex", PNone);
   ("custom", "custom", PNone);
   ("description", "description", PNone);
   ("events", "events", PNone);
   ("id", "id", PNone);
   ("label_rank", "labelrank", PNone);
   ("name", "name", PNone);
   ("selected", "selected", PNone);
   ("data_labels", "dataLabels", PNone);
   ("drag_drop", "dragDrop", PNone);
   ("weight", "weight", PNone)].

Definition _get_kwargs_from_dict (as_dict : dict) : dict * dict :=
  GenericTypeOptions.pop_all kwargs_table as_dict.

End WordcloudData.

(* ================================================================= *)
(** ** Keys and keyword arguments *)

(** The mapping [untrimmed] that [PaneBackground.to_dict] builds before it
    trims. *)
Definition PaneBackground_untrimmed (self : PaneBackground.t) : dict :=
  [("backgroundColor", PaneBackground._background_color self);
   ("borderColor", PaneBackground._border_color self);
   ("borderWidth", PaneBackground._border_width self);
   ("className", PaneBackground._class_name self);
   ("innerRadius", PaneBackground._inner_radius self);
   ("outerRadius", PaneBackground._outer_radius self);
   ("shape", PaneBackground._shape self)].

(** The keyword of each slot with the external key its factory pops. *)
Definition AxisMarker_keys : list (string * string) :=
  [("animation", "animation"); ("color", "color"); ("width", "width")].

Definition PaneBackground_keys : list (string * string) :=
  [("background_color", "backgroundColor");
   ("border_color", "borderColor");
   ("border_width", "borderWidth");
   ("class_name", "className");
   ("inner_radius", "innerRadius");
   ("outer_radius", "outerRadius");
   ("shape", "shape")].

(** The keyword arguments a mapping with external keys stands for: the
    entries under declared keys, renamed, and nothing for a key that is
    absent. *)
Fixpoint kwargs_of (table : list (string * string)) (m : dict) : dict :=
  match table with
  | [] => []
  | (name, key) :: rest =>
      match dict_get m key with
      | Some v => (name, v) :: kwargs_of rest m
      | None => kwargs_of rest m
      end
  end.

(** Two mappings with the same entry, or none, under each key of [ks]. *)
Definition same_on (ks : list string) (m m' : dict) : Prop :=
  forall k, In k ks -> dict_get m k = dict_get m' k.

(** A node with a Gradient in a colour slot and unset slots beside it. *)
Definition gradient_stub : pyval :=
  PObj "Gradient" [("linear_gradient", PDict [("x1", PInt 0)])].

Definition PaneBackground_with_gradient : PaneBackground.t :=
  {| PaneBackground._background_color := gradient_stub;
     PaneBackground._border_color := PNone;
     PaneBackground._border_width := PNone;
     PaneBackground._class_name := PStr "pane";
     PaneBackground._inner_radius := PNone;
     PaneBackground._outer_radius := PStr "105%";
     PaneBackground._shape := PStr "arc" |}.

(* ================================================================= *)
(** * Properties *)

(** ** The exception monad *)

Lemma bind_Ok {A B} (c : result A) (k : A -> result B) (b : B) :
  bind c k = Ok b -> exists a, c = Ok a /\ k a = Ok b.
Proof.
  destruct c as [a|e]; simpl; intros H; [eauto | discriminate].
Qed.

Lemma try_except_Ok {A} caught (body handler : result A) (a : A) :
  try_except caught body handler = Ok a ->
  body = Ok a \/
  (exists e, body = Raise e /\ caught e = true /\ handler = Ok a).
Proof.
  unfold try_except. destruct body as [x|e]; intros H.
  - left. exact H.
  - right. exists e. destruct (caught e); [auto | discriminate].
Qed.

(** ** Trimming *)

Lemma trim_PDict (m : dict) : trim (PDict m) = PDict (trim_dict m).
Proof. reflexivity. Qed.

Lemma trim_dict_as_filter (m : dict) :
  trim_dict m =
  filter (fun kv => negb (is_empty (snd kv)))
         (map (fun kv => (fst kv, trim (snd kv))) m).
Proof.
  induction m as [|[k x] m IH]; simpl; [reflexivity|].
  destruct (is_empty (trim x)); simpl; rewrite IH; reflexivity.
Qed.

Lemma trim_dict_idem_from (m : dict) :
  Forall (fun kv => trim (trim (snd kv)) = trim (snd kv)) m ->
  trim_dict (trim_dict m) = trim_dict m.
Proof.
  induction 1 as [|[k x] m Hx _ IH]; simpl; [reflexivity|].
  simpl in Hx.
  destruct (is_empty (trim x)) eqn:Hempty; [exact IH|].
  simpl. rewrite Hx, Hempty, IH. reflexivity.
Qed.

Lemma trim_idem (v : pyval) : trim (trim v) = trim v.
Proof.
  induction v as [| | | | |l IH|m IH|c a IH] using pyval_nested_ind;
    try reflexivity.
  - simpl. f_equal. rewrite map_map.
    induction IH as [|x l Hx _ IHl]; simpl; [reflexivity|].
    rewrite Hx, IHl. reflexivity.
  - change (PDict (trim_dict (trim_dict m)) = PDict (trim_dict m)).
    f_equal. apply trim_dict_idem_from. exact IH.
Qed.

(** C2.  Trimming is idempotent: on every nested mapping [x], whatever
    empty strings, empty sequences, empty mappings, [False] and [0] it
    holds, trimming the trimmed mapping gives the trimmed mapping again (and
    so for every value below it). *)
Theorem trim_dict_idempotent :
  (forall x : dict, trim_dict (trim_dict x) = trim_dict x) /\
  (forall v : pyval, trim (trim v) = trim v).
Proof.
  split; [|exact trim_idem].
  intros x. apply trim_dict_idem_from.
  apply Forall_forall. intros kv _. apply trim_idem.
Qed.

Lemma is_empty_spec (v : pyval) :
  is_empty v = true <-> v = PNone \/ v = PList [] \/ v = PDict [].
Proof.
  split.
  - destruct v as [| | | | |[|x l]|[|kv m]|c a]; simpl; intros H;
      try discriminate; auto.
  - intros [->|[->| ->]]; reflexivity.
Qed.


(** C7.  An [AxisMarker] built with [width=0.01, color=None] serializes to
    exactly [{"width": 0.01}]; in general trimming keeps an entry, with its
    value trimmed, exactly when that trimmed value is not unset or empty,
    and [False] and the numbers, zero included, are never that. *)
Theorem axis_marker_width_only (E : Env) :
  (exists n,
      AxisMarker.__init__ E [("width", PFloat (1 # 100)); ("color", PNone)]
        = Ok n /\
      AxisMarker._to_untrimmed_dict n =
        [("animation", PNone); ("color", PNone);
         ("width", PFloat (1 # 100))] /\
      AxisMarker.to_dict n = [("width", PFloat (1 # 100))]) /\
  (forall m : dict,
      trim_dict m =
      filter (fun kv => negb (is_empty (snd kv)))
             (map (fun kv => (fst kv, trim (snd kv))) m)) /\
  (forall v, is_empty v = true <-> v = PNone \/ v = PList [] \/ v = PDict []) /\
  (forall b, trim (PBool b) = PBool b /\ is_empty (PBool b) = false) /\
  (forall z, trim (PInt z) = PInt z /\ is_empty (PInt z) = false) /\
  (forall q, trim (PFloat q) = PFloat q /\ is_empty (PFloat q) = false).
Proof.
  split; [|split; [exact trim_dict_as_filter|split; [exact is_empty_spec|]]].
  - eexists. split; [reflexivity|]. split; reflexivity.
  - repeat split.
Qed.

(** ** The polymorphic colour setter *)

Lemma dict_has_nonempty (m : dict) (k : string) :
  dict_has m k = true -> truthy (PDict m) = true.
Proof. destruct m; [discriminate | reflexivity]. Qed.

Lemma new_obj_Ok cls c v :
  new_obj cls c = Ok v -> exists a, v = PObj cls a.
Proof.
  unfold new_obj. intros H. apply bind_Ok in H as (a & _ & H).
  exists a. congruence.
Qed.

Lemma resolve_color_falsy (E : Env) (v : pyval) :
  truthy v = false -> resolve_color E v = Ok PNone.
Proof. intros H. unfold resolve_color, py_not. rewrite H. reflexivity. Qed.

Lemma resolve_color_gradient_key (E : Env) (m : dict) :
  dict_has m "linearGradient" = true ->
  resolve_color E (PDict m) =
    try_except (is_ValueError E)
      (new_obj "Gradient" (cls_from_json E "Gradient" (PDict m)))
      (new_obj "Gradient" (cls_from_dict E "Gradient" m)).
Proof.
  intros H. unfold resolve_color, py_not.
  rewrite (dict_has_nonempty _ _ H). simpl. rewrite H. reflexivity.
Qed.

Lemma resolve_color_pattern_key (E : Env) (m : dict) :
  dict_has m "patternOptions" = true ->
  dict_has m "linearGradient" = false ->
  dict_has m "linear_gradient" = false ->
  resolve_color E (PDict m) =
    try_except (is_ValueError E)
      (new_obj "Pattern" (cls_from_json E "Pattern" (PDict m)))
      (new_obj "Pattern" (cls_from_dict E "Pattern" m)).
Proof.
  intros H H1 H2. unfold resolve_color, py_not.
  rewrite (dict_has_nonempty _ _ H). simpl. rewrite H1, H2, H. reflexivity.
Qed.

Lemma try_new_obj_Ok caught cls c1 c2 v :
  try_except caught (new_obj cls c1) (new_obj cls c2) = Ok v ->
  isinstance v cls = true.
Proof.
  intros H. apply try_except_Ok in H as [H|(e & _ & _ & H)];
    apply new_obj_Ok in H as (a & ->); simpl; apply String.eqb_refl.
Qed.

Lemma resolve_color_plain_str (E : Env) (s : string) :
  s <> "" ->
  str_contains "linearGradient" s = false ->
  str_contains "patternOptions" s = false ->
  resolve_color E (PStr s) = Raise (HighchartsValueError (PStr s)).
Proof.
  intros Hs H1 H2. unfold resolve_color, py_not. simpl.
  destruct (String.eqb_spec s ""); [contradiction|]. simpl.
  rewrite H1, H2. reflexivity.
Qed.

(** C3.  Assigning the plain colour string ["#999999"] to a
    polymorphic-colour slot does not store it: the setter of
    [AxisMarker.color], of [PaneBackground.background_color] and of
    [GenericTypeOptions.color] raises [HighchartsValueError] reporting the
    string, whatever the environment and the node; and so for every
    non-empty string without a discriminator in it. *)
Theorem plain_color_string_raises (E : Env) :
  resolve_color E (PStr "#999999")
    = Raise (HighchartsValueError (PStr "#999999")) /\
  (forall self, AxisMarker.color_setter E self (PStr "#999999")
    = Raise (HighchartsValueError (PStr "#999999"))) /\
  (forall self, PaneBackground.background_color_setter E self (PStr "#999999")
    = Raise (HighchartsValueError (PStr "#999999"))) /\
  (forall self, GenericTypeOptions.color_setter E self (PStr "#999999")
    = Raise (HighchartsValueError (PStr "#999999"))) /\
  (forall s, s <> "" ->
     str_contains "linearGradient" s = false ->
     str_contains "patternOptions" s = false ->
     resolve_color E (PStr s) = Raise (HighchartsValueError (PStr s))).
Proof. repeat split. apply resolve_color_plain_str. Qed.

Lemma try_except_escapes {A} (caught : exn -> bool)
    (body handler : result A) (e : exn) :
  body = Raise e -> caught e = false ->
  try_except caught body handler = Raise e.
Proof. intros -> H. simpl. rewrite H. reflexivity. Qed.

Lemma resolve_color_unparsed (E : Env) (m : dict) (cls : string) (e : exn) :
  cls_from_json E cls (PDict m) = Raise e ->
  is_ValueError E e = false ->
  forall handler,
    try_except (is_ValueError E)
      (new_obj cls (cls_from_json E cls (PDict m))) handler = Raise e.
Proof.
  intros Hjson He handler. apply try_except_escapes; [|exact He].
  unfold new_obj. rewrite Hjson. reflexivity.
Qed.

(** C4.  A mapping with the key ['linearGradient'] is handed to
    [Gradient.from_json] first, and only a [ValueError] from that call leads
    on to [Gradient.from_dict]: when [from_json] raises anything else, as
    [json.loads] does with its [TypeError] on a mapping, each
    polymorphic-colour setter raises that exception and stores nothing.
    The same holds of a mapping with the key ['patternOptions'] and
    [Pattern.from_json].  The rest of the claim holds: every falsy input,
    the empty string, [{}] and [None] among them, stores [None], and a
    non-empty mapping without a discriminator key, [{"foo": "bar"}] for one,
    raises [HighchartsValueError] reporting the mapping. *)
Theorem color_mapping_raises_parser_error (E : Env) :
  (forall m e,
     dict_has m "linearGradient" = true ->
     cls_from_json E "Gradient" (PDict m) = Raise e ->
     is_ValueError E e = false ->
     resolve_color E (PDict m) = Raise e /\
     (forall self, AxisMarker.color_setter E self (PDict m) = Raise e) /\
     (forall self,
        PaneBackground.background_color_setter E self (PDict m) = Raise e) /\
     (forall self,
        GenericTypeOptions.color_setter E self (PDict m) = Raise e)) /\
  (forall m e,
     dict_has m "patternOptions" = true ->
     dict_has m "linearGradient" = false ->
     dict_has m "linear_gradient" = false ->
     cls_from_json E "Pattern" (PDict m) = Raise e ->
     is_ValueError E e = false ->
     resolve_color E (PDict m) = Raise e /\
     (forall self, AxisMarker.color_setter E self (PDict m) = Raise e) /\
     (forall self,
        PaneBackground.background_color_setter E self (PDict m) = Raise e) /\
     (forall self,
        GenericTypeOptions.color_setter E self (PDict m) = Raise e)) /\
  (forall v, truthy v = false -> resolve_color E v = Ok PNone) /\
  resolve_color E (PStr "") = Ok PNone /\
  resolve_color E (PDict []) = Ok PNone /\
  resolve_color E PNone = Ok PNone /\
  (forall m, m <> [] ->
     dict_has m "linearGradient" = false ->
     dict_has m "linear_gradient" = false ->
     dict_has m "patternOptions" = false ->
     dict_has m "pattern_options" = false ->
     resolve_color E (PDict m) = Raise (HighchartsValueError (PDict m))) /\
  resolve_color E (PDict [("foo", PStr "bar")])
    = Raise (HighchartsValueError (PDict [("foo", PStr "bar")])).
Proof.
  assert (forall m e, resolve_color E (PDict m) = Raise e ->
            resolve_color E (PDict m) = Raise e /\
            (forall self, AxisMarker.color_setter E self (PDict m) = Raise e) /\
            (forall self,
               PaneBackground.background_color_setter E self (PDict m)
                 = Raise e) /\
            (forall self,
               GenericTypeOptions.color_setter E self (PDict m) = Raise e))
    as Hsetters.
  { intros m e H.
    unfold AxisMarker.color_setter, PaneBackground.background_color_setter,
      GenericTypeOptions.color_setter.
    rewrite H. repeat split. }
  split; [|split; [|split; [exact (resolve_color_falsy E)|]]].
  - intros m e H Hjson He. apply Hsetters.
    rewrite resolve_color_gradient_key by exact H.
    exact (@resolve_color_unparsed E m "Gradient" _ Hjson He _).
  - intros m e H H1 H2 Hjson He. apply Hsetters.
    rewrite resolve_color_pattern_key by assumption.
    exact (@resolve_color_unparsed E m "Pattern" _ Hjson He _).
  - repeat split.
    intros m Hm H1 H2 H3 H4. unfold resolve_color, py_not.
    destruct m as [|kv m]; [contradiction|]. simpl.
    rewrite H1, H2, H3, H4. reflexivity.
Qed.

Lemma color_mapping_raises_parser_error_witness :
  (exists msg,
     cls_from_json sample_env "Gradient"
         (PDict [("linearGradient", PDict [("x1", PInt 0)])])
       = Raise (TypeError msg) /\
     AxisMarker.color_setter sample_env blank_AxisMarker
         (PDict [("linearGradient", PDict [("x1", PInt 0)])])
       = Raise (TypeError msg)) /\
  (exists msg,
     PaneBackground.background_color_setter sample_env blank_PaneBackground
         (PDict [("patternOptions", PDict [("width", PInt 4)])])
       = Raise (TypeError msg)).
Proof.
  destruct (color_mapping_raises_parser_error sample_env)
    as (Hgradient & Hpattern & _).
  split; eexists.
  - split; [reflexivity|].
    exact (proj1 (proj2 (Hgradient
                           [("linearGradient", PDict [("x1", PInt 0)])] _
                           eq_refl eq_refl eq_refl))
             blank_AxisMarker).
  - exact (proj1 (proj2 (proj2 (Hpattern
                                  [("patternOptions",
                                    PDict [("width", PInt 4)])] _
                                  eq_refl eq_refl eq_refl eq_refl eq_refl)))
             blank_PaneBackground).
Defined.

(** ** Numeric-or-percentage slots *)

(** C5, as stated, fails: no environment and no node make
    [inner_radius = "fifty"] raise, the string is stored. *)
Lemma inner_radius_fifty_is_stored :
  (~ exists E self e,
      PaneBackground.inner_radius_setter E self (PStr "fifty") = Raise e) /\
  PaneBackground.inner_radius_setter sample_env
      blank_PaneBackground (PStr "fifty")
    = Ok (PaneBackground.with_inner_radius blank_PaneBackground
            (PStr "fifty")).
Proof.
  split; [|reflexivity]. intros (E & self & e & H). discriminate.
Qed.

(** C5, amended.  Setting [inner_radius] to ["50%"] stores the string
    ["50%"], to [None] stores [None], and to ["fifty"] stores the string
    ["fifty"]: every non-empty string passes the string validation that is
    tried first, and is stored as it is. *)
Theorem inner_radius_accepts (E : Env) (self : PaneBackground.t) :
  PaneBackground.inner_radius_setter E self (PStr "50%")
    = Ok (PaneBackground.with_inner_radius self (PStr "50%")) /\
  PaneBackground.inner_radius_setter E self PNone
    = Ok (PaneBackground.with_inner_radius self PNone) /\
  PaneBackground.inner_radius_setter E self (PStr "fifty")
    = Ok (PaneBackground.with_inner_radius self (PStr "fifty")) /\
  (forall s, s <> "" ->
     PaneBackground.inner_radius_setter E self (PStr s)
       = Ok (PaneBackground.with_inner_radius self (PStr s))).
Proof.
  unfold PaneBackground.inner_radius_setter, PaneBackground.radius_value.
  repeat split.
  intros s Hs. simpl. destruct (String.eqb_spec s ""); [contradiction|].
  simpl. unfold validators_string, py_not. simpl.
  destruct (String.eqb_spec s ""); [contradiction|]. reflexivity.
Qed.

Lemma inner_radius_accepts_witness :
  "105%" <> "" /\
  PaneBackground.inner_radius_setter sample_env blank_PaneBackground
      (PStr "105%")
    = Ok (PaneBackground.with_inner_radius blank_PaneBackground
            (PStr "105%")).
Proof.
  split; [discriminate|].
  apply (inner_radius_accepts sample_env blank_PaneBackground).
  discriminate.
Defined.

(** ** Pane sizes *)

Lemma trim_dict_key (m : dict) (k : string) :
  dict_has (trim_dict m) k = true ->
  exists v, In (k, v) m /\ is_empty (trim v) = false.
Proof.
  unfold dict_has. induction m as [|[k' x] m IH]; simpl; [discriminate|].
  destruct (is_empty (trim x)) eqn:Hx.
  - intros H. destruct (IH H) as (v & Hin & Hv). eauto.
  - simpl. destruct (String.eqb_spec k' k) as [->|Hk].
    + intros _. exists x. auto.
    + intros H. destruct (IH H) as (v & Hin & Hv). eauto.
Qed.

Lemma Pane_to_dict_unset_size (self : Pane.t) :
  dict_has (Pane.to_dict (Pane.with_size self PNone)) "size" = false /\
  dict_has (Pane.to_dict (Pane.with_inner_size self PNone)) "innerSize"
    = false.
Proof.
  split;
    match goal with
    | |- ?b = false => destruct b eqn:H; [exfalso | reflexivity]
    end;
    apply trim_dict_key in H as (v & Hin & Hv); simpl in Hin;
    repeat (destruct Hin as [Hin|Hin];
            [inversion Hin; subst; try discriminate|]);
    try contradiction.
Qed.

(** C10.  The setters of [Pane.size] and [Pane.inner_size] store [None] for
    every falsy input, the number 0 among them, and the slot so unset has no
    entry in what [to_dict] returns. *)
Theorem pane_size_falsy_unset (E : Env) (self : Pane.t) (value : pyval) :
  truthy value = false ->
  Pane.size_setter E self value = Ok (Pane.with_size self PNone) /\
  Pane.inner_size_setter E self value
    = Ok (Pane.with_inner_size self PNone) /\
  Pane._size (Pane.with_size self PNone) = PNone /\
  Pane._inner_size (Pane.with_inner_size self PNone) = PNone /\
  dict_has (Pane.to_dict (Pane.with_size self PNone)) "size" = false /\
  dict_has (Pane.to_dict (Pane.with_inner_size self PNone)) "innerSize"
    = false.
Proof.
  intros H. unfold Pane.size_setter, Pane.inner_size_setter, py_not.
  rewrite H. simpl. repeat split; apply Pane_to_dict_unset_size.
Qed.

Lemma pane_size_falsy_unset_witness :
  truthy (PInt 0) = false /\
  Pane.size_setter sample_env blank_Pane (PInt 0)
    = Ok (Pane.with_size blank_Pane PNone) /\
  Pane.inner_size_setter sample_env blank_Pane (PInt 0)
    = Ok (Pane.with_inner_size blank_Pane PNone).
Proof.
  split; [reflexivity|].
  pose proof (pane_size_falsy_unset sample_env blank_Pane
                (PInt 0) eq_refl) as (H1 & H2 & _).
  split; [exact H1 | exact H2].
Defined.

(** ** What [from_dict] does to its argument *)

Lemma without_remove (ks : list string) (k : string) (m : dict) :
  without ks (dict_remove m k) = without (k :: ks) m.
Proof.
  unfold without, dict_remove.
  induction m as [|[k' v] m IH]; simpl; [reflexivity|].
  rewrite (String.eqb_sym k' k).
  destruct (String.eqb k k'); simpl; rewrite IH; reflexivity.
Qed.

Lemma without_nil (m : dict) : without [] m = m.
Proof. unfold without. simpl. apply filter_true. Qed.

Lemma pop_all_leaves (table : list (string * string * pyval)) (m : dict) :
  snd (GenericTypeOptions.pop_all table m)
    = without (map (fun e => snd (fst e)) table) m.
Proof.
  revert m. induction table as [|[[name key] d] table IH]; intros m; simpl.
  - symmetry. apply without_nil.
  - specialize (IH (dict_remove m key)).
    destruct (GenericTypeOptions.pop_all table (dict_remove m key))
      as [kwargs rest].
    simpl in *. rewrite IH. apply without_remove.
Qed.

Lemma filter_fixed {A} (p : A -> bool) (l : list A) :
  filter p l = l <-> forallb p l = true.
Proof.
  split; [|apply forallb_filter_id].
  induction l as [|a l IH]; simpl; [reflexivity|].
  destruct (p a) eqn:Hp; intros H.
  - injection H as H. rewrite (IH H). reflexivity.
  - exfalso. pose proof (filter_length_le p l) as Hlen.
    rewrite H in Hlen. simpl in Hlen. lia.
Qed.

Lemma dict_has_In (m : dict) (k : string) :
  dict_has m k = true <-> In k (keys m).
Proof.
  unfold dict_has. induction m as [|[k' v] m IH]; simpl.
  - split; [discriminate | contradiction].
  - destruct (String.eqb_spec k' k) as [->|Hk].
    + split; auto.
    + rewrite IH. split; [auto | intros [?|?]; [contradiction | assumption]].
Qed.

Lemma str_in_In (s : string) (l : list string) :
  str_in s l = true <-> In s l.
Proof.
  unfold str_in. rewrite existsb_exists. split.
  - intros (x & Hin & Heq). apply String.eqb_eq in Heq. subst. exact Hin.
  - intros Hin. exists s. split; [exact Hin | apply String.eqb_refl].
Qed.

Lemma without_fixed (ks : list string) (m : dict) :
  without ks m = m <-> forall k, In k ks -> dict_has m k = false.
Proof.
  unfold without. split.
  - intros H. apply (proj1 (filter_fixed _ _)) in H.
    rewrite forallb_forall in H.
    intros k Hk. destruct (dict_has m k) eqn:Hhas; [|reflexivity].
    apply dict_has_In in Hhas. unfold keys in Hhas.
    apply in_map_iff in Hhas as (kv & <- & Hin).
    specialize (H kv Hin). apply (proj2 (str_in_In _ _)) in Hk.
    rewrite Hk in H. discriminate.
  - intros H. apply (proj2 (filter_fixed _ _)). apply forallb_forall.
    intros kv Hin. destruct (str_in (fst kv) ks) eqn:Hs; [|reflexivity].
    apply str_in_In in Hs. specialize (H _ Hs).
    assert (dict_has m (fst kv) = true) as Hhas.
    { apply dict_has_In. unfold keys. apply in_map. exact Hin. }
    congruence.
Qed.

(** C8.  [from_dict] is not without effect on its argument:
    [AxisMarker.from_dict] leaves the mapping [{"width": 1}] empty.  The
    factories of [AxisMarker], [PaneBackground] and [GenericTypeOptions] pop
    every declared external key, whether or not the constructor then raises,
    so that the mapping keeps only its other entries and is unchanged
    exactly when it had none of the declared keys; the newer
    [PictorialPaths._get_kwargs_from_dict] reads with [get] and leaves the
    mapping as it was. *)
Theorem from_dict_pops_declared_keys (E : Env) (m : dict) :
  AxisMarker.from_dict E [("width", PInt 1)]
    = (Ok {| AxisMarker._animation := PNone; AxisMarker._color := PNone;
             AxisMarker._width := PInt 1 |}, []) /\
  snd (AxisMarker.from_dict E m)
    = without ["animation"; "color"; "width"] m /\
  snd (PaneBackground.from_dict E m)
    = without ["backgroundColor"; "borderColor"; "borderWidth"; "className";
               "innerRadius"; "outerRadius"; "shape"] m /\
  snd (GenericTypeOptions.from_dict E m)
    = without (map (fun e => snd (fst e)) GenericTypeOptions.kwargs_table) m /\
  (forall ks, without ks m = m <-> forall k, In k ks -> dict_has m k = false) /\
  snd (PictorialPaths._get_kwargs_from_dict m) = m.
Proof.
  split; [reflexivity|].
  split; [|split; [|split; [|split; [intros ks; apply without_fixed|]]]].
  - change (snd (AxisMarker.from_dict E m))
      with (dict_remove (dict_remove (dict_remove m "animation") "color")
              "width").
    rewrite <- (without_nil (dict_remove _ "width")).
    rewrite !without_remove.
    apply filter_ext. intros [k v]. simpl.
    destruct (String.eqb k "animation"), (String.eqb k "color"),
      (String.eqb k "width"); reflexivity.
  - change (snd (PaneBackground.from_dict E m))
      with (dict_remove (dict_remove (dict_remove (dict_remove (dict_remove
              (dict_remove (dict_remove m "backgroundColor") "borderColor")
              "borderWidth") "className") "innerRadius") "outerRadius")
              "shape").
    rewrite <- (without_nil (dict_remove _ "shape")).
    rewrite !without_remove.
    apply filter_ext. intros [k v]. simpl.
    destruct (String.eqb k "backgroundColor"), (String.eqb k "borderColor"),
      (String.eqb k "borderWidth"), (String.eqb k "className"),
      (String.eqb k "innerRadius"), (String.eqb k "outerRadius"),
      (String.eqb k "shape"); reflexivity.
  - unfold GenericTypeOptions.from_dict,
      GenericTypeOptions._get_kwargs_from_dict.
    pose proof (pop_all_leaves GenericTypeOptions.kwargs_table m) as H.
    destruct (GenericTypeOptions.pop_all GenericTypeOptions.kwargs_table m).
    exact H.
  - reflexivity.
Qed.

(** ** [GenericTypeOptions] cannot be constructed *)

Lemma bind_never {A B} (c : result A) (k : A -> result B) :
  (forall a, returns (k a) = false) -> returns (bind c k) = false.
Proof. intros H. destruct c; simpl; [apply H | reflexivity]. Qed.

Lemma GenericTypeOptions_init_never_returns (E : Env) (kwargs : dict) :
  returns (GenericTypeOptions.__init__ E kwargs) = false.
Proof.
  unfold GenericTypeOptions.__init__.
  repeat (first [reflexivity | apply bind_never; intros ?]).
Qed.

(** C6.  [GenericTypeOptions.from_dict] returns a node on no mapping: the
    constructor assigns to the property [show_checkbox], which has no
    setter, so whatever came before, it raises; on the empty mapping what it
    raises is that [AttributeError]. *)
Theorem generic_from_dict_never_returns (E : Env) (as_dict : dict) :
  returns (fst (GenericTypeOptions.from_dict E as_dict)) = false /\
  (forall kwargs, returns (GenericTypeOptions.__init__ E kwargs) = false) /\
  fst (GenericTypeOptions.from_dict E [])
    = Raise (AttributeError "show_checkbox").
Proof.
  split; [|split; [apply GenericTypeOptions_init_never_returns|reflexivity]].
  unfold GenericTypeOptions.from_dict.
  destruct (GenericTypeOptions._get_kwargs_from_dict as_dict) as [kw rest].
  apply GenericTypeOptions_init_never_returns.
Qed.

(** ** Importing [pane.py] *)

Lemma Optional_called (ns : PyExec.namespace) (x : PyExec.expr) a :
  PyExec.lookup ns "Optional" = Some (PyExec.TSpecialForm "Optional") ->
  PyExec.eval ns x = Ok a ->
  PyExec.eval ns (PyExec.Call (PyExec.Name "Optional") x)
    = Raise (TypeError "Cannot instantiate typing.Optional").
Proof. intros H Hx. simpl. rewrite H, Hx. reflexivity. Qed.

(** C9.  Executing the body of [class Pane] raises a [TypeError]: the return
    annotations of [end_angle] and [start_angle] call [Optional] where the
    others subscript it.  [PaneBackground]'s body runs, [Pane]'s does not,
    so importing the module raises and neither class can be reached through
    it. *)
Theorem pane_module_import_raises :
  (exists ns,
      PyExec.exec_class PyExec.pane_imports PyExec.PaneBackground_def = Ok ns /\
      PyExec.exec_class ns PyExec.Pane_def
        = Raise (TypeError "Cannot instantiate typing.Optional") /\
      PyExec.exec_def ns
          (PyExec.getter "end_angle"
             (PyExec.Call (PyExec.Name "Optional") PyExec.numeric_ann))
        = Raise (TypeError "Cannot instantiate typing.Optional") /\
      PyExec.exec_def ns
          (PyExec.getter "start_angle"
             (PyExec.Call (PyExec.Name "Optional") PyExec.numeric_ann))
        = Raise (TypeError "Cannot instantiate typing.Optional") /\
      PyExec.exec_def ns
          (PyExec.getter "end_angle" (PyExec.Optional_ PyExec.numeric_ann))
        = Ok tt) /\
  PyExec.import_pane = Raise (TypeError "Cannot instantiate typing.Optional") /\
  PyExec.module_attr PyExec.import_pane "Pane" = None /\
  PyExec.module_attr PyExec.import_pane "PaneBackground" = None.
Proof.
  split; [|repeat split].
  eexists. split; [reflexivity|]. repeat split.
Qed.

(** ** Round trip *)








(** Each coercion returns its own results unchanged. *)








(** What a colour or an animation slot holds is [None], [False], a string
    or an instance: trimming leaves it as it is, and it counts as empty only
    when it is [None]. *)





Lemma AxisMarker_init_eq (E : Env) (kwargs : dict) :
  AxisMarker.__init__ E kwargs =
  (a <- animation_value E (get_or kwargs "animation" PNone) ;;
   c <- resolve_color E (get_or kwargs "color" PNone) ;;
   w <- validators_numeric E (get_or kwargs "width" PNone) true None None ;;
   Ok {| AxisMarker._animation := a; AxisMarker._color := c;
         AxisMarker._width := w |}).
Proof.
  unfold AxisMarker.__init__, AxisMarker.animation_setter, animation_value,
    AxisMarker.color_setter, AxisMarker.width_setter.
  destruct (is_False (get_or kwargs "animation" PNone)); simpl.
  - destruct (resolve_color E _); simpl; [|reflexivity].
    destruct (validators_numeric E _ _ _ _); reflexivity.
  - destruct (validate_types E _ _ _); simpl; [|reflexivity].
    destruct (resolve_color E _); simpl; [|reflexivity].
    destruct (validators_numeric E _ _ _ _); reflexivity.
Qed.

Lemma shape_setter_eq (self : PaneBackground.t) (value : pyval) :
  PaneBackground.shape_setter self value =
  (v <- shape_value value ;; Ok (PaneBackground.with_shape self v)).
Proof.
  unfold PaneBackground.shape_setter, shape_value.
  destruct (py_not value); [reflexivity|].
  destruct (validators_string value false) as [y|e]; simpl; [|reflexivity].
  destruct y; try reflexivity.
  match goal with |- context [if ?b then _ else _] => destruct b end;
    reflexivity.
Qed.

Lemma PaneBackground_init_eq (E : Env) (kwargs : dict) :
  PaneBackground.__init__ E kwargs =
  (let d := PaneBackground.default E in
   bc <- resolve_color E (get_or kwargs "background_color"
                            (d "background_color")) ;;
   bo <- resolve_color E (get_or kwargs "border_color" (d "border_color")) ;;
   bw <- validators_numeric E
           (get_or kwargs "border_width" (d "border_width")) true None None ;;
   cn <- validators_string (get_or kwargs "class_name" (d "class_name"))
           true ;;
   ir <- PaneBackground.radius_value E
           (get_or kwargs "inner_radius" (d "inner_radius")) ;;
   or <- PaneBackground.radius_value E
           (get_or kwargs "outer_radius" (d "outer_radius")) ;;
   sh <- shape_value (get_or kwargs "shape" (d "shape")) ;;
   Ok {| PaneBackground._background_color := bc;
         PaneBackground._border_color := bo;
         PaneBackground._border_width := bw;
         PaneBackground._class_name := cn;
         PaneBackground._inner_radius := ir;
         PaneBackground._outer_radius := or;
         PaneBackground._shape := sh |}).
Proof.
  unfold PaneBackground.__init__, PaneBackground.background_color_setter,
    PaneBackground.border_color_setter, PaneBackground.border_width_setter,
    PaneBackground.class_name_setter, PaneBackground.inner_radius_setter,
    PaneBackground.outer_radius_setter.
  cbv zeta.
  destruct (resolve_color E (get_or kwargs "background_color" _));
    simpl; [|reflexivity].
  destruct (resolve_color E (get_or kwargs "border_color" _));
    simpl; [|reflexivity].
  destruct (validators_numeric E _ _ _ _); simpl; [|reflexivity].
  destruct (validators_string _ _); simpl; [|reflexivity].
  destruct (PaneBackground.radius_value E
              (get_or kwargs "inner_radius" _)); simpl; [|reflexivity].
  destruct (PaneBackground.radius_value E
              (get_or kwargs "outer_radius" _)); simpl; [|reflexivity].
  rewrite shape_setter_eq.
  destruct (shape_value _); reflexivity.
Qed.


(** Break a [Forall] over a schema written out into one fact per slot. *)
Ltac split_schema H :=
  repeat match type of H with
         | Forall _ (_ :: _) =>
             let H1 := fresh "Hslot" in
             apply Forall_cons_iff in H as [H1 H]; cbv beta iota in H1
         end;
  clear H.





(** The constructors return settled nodes and the setters keep them so. *)






Lemma reparsed_refilled (E : Env) (n n' : PaneBackground.t) :
  PaneBackground_reparsed E n = Ok n' -> refilled E n n'.
Proof.
  unfold PaneBackground_reparsed. cbv zeta. intros H.
  apply bind_Ok in H as (bc & Hbc & H).
  apply bind_Ok in H as (bo & Hbo & H).
  apply bind_Ok in H as (bw & Hbw & H).
  apply bind_Ok in H as (cn & Hcn & H).
  apply bind_Ok in H as (ir & Hir & H).
  apply bind_Ok in H as (or & Hor & H).
  apply bind_Ok in H as (sh & Hsh & H).
  inversion H; subst; clear H.
  unfold refilled, PaneBackground_schema.
  unfold back in *.
  repeat (apply Forall_cons;
          [cbv beta iota; simpl;
           match goal with
           | |- context [is_None ?v] =>
               destruct (is_None v); congruence
           end|]).
  apply Forall_nil.
Qed.






(* ================================================================= *)
(** * Further properties of the factories and the setters *)

(** ** Factories read the declared keys and nothing else *)

Lemma dict_get_remove_other (m : dict) (k k' : string) :
  k <> k' -> dict_get (dict_remove m k') k = dict_get m k.
Proof.
  intros Hk. unfold dict_remove.
  induction m as [|[k0 v] m IH]; simpl; [reflexivity|].
  destruct (String.eqb_spec k0 k') as [->|Hk0]; simpl.
  - destruct (String.eqb_spec k' k) as [->|_]; [contradiction | exact IH].
  - rewrite IH. reflexivity.
Qed.

Lemma get_or_remove_other (m : dict) (k k' : string) (d : pyval) :
  k <> k' -> get_or (dict_remove m k') k d = get_or m k d.
Proof.
  intros Hk. unfold get_or. rewrite dict_get_remove_other by exact Hk.
  reflexivity.
Qed.

Lemma AxisMarker_from_dict_lookup (E : Env) (m : dict) :
  fst (AxisMarker.from_dict E m) =
  AxisMarker.__init__ E
    [("animation", get_or m "animation" PNone);
     ("color", get_or m "color" PNone);
     ("width", get_or m "width" PNone)].
Proof.
  unfold AxisMarker.from_dict, pop. cbv beta iota zeta. simpl fst.
  rewrite !get_or_remove_other by discriminate. reflexivity.
Qed.

Lemma PaneBackground_from_dict_lookup (E : Env) (m : dict) :
  fst (PaneBackground.from_dict E m) =
  PaneBackground.__init__ E
    [("background_color",
      get_or m "backgroundColor" (PaneBackground.default E "background_color"));
     ("border_color",
      get_or m "borderColor" (PaneBackground.default E "border_color"));
     ("border_width",
      get_or m "borderWidth" (PaneBackground.default E "border_width"));
     ("class_name",
      get_or m "className" (PaneBackground.default E "class_name"));
     ("inner_radius",
      get_or m "innerRadius" (PaneBackground.default E "inner_radius"));
     ("outer_radius",
      get_or m "outerRadius" (PaneBackground.default E "outer_radius"));
     ("shape", get_or m "shape" (PaneBackground.default E "shape"))].
Proof.
  unfold PaneBackground.from_dict, pop. cbv beta iota zeta. simpl fst.
  rewrite !get_or_remove_other by discriminate. reflexivity.
Qed.

Lemma same_on_get_or (ks : list string) (m m' : dict) (k : string)
    (d : pyval) :
  same_on ks m m' -> In k ks -> get_or m k d = get_or m' k d.
Proof. intros H Hk. unfold get_or. rewrite (H k Hk). reflexivity. Qed.

Lemma kwargs_of_absent (table : list (string * string)) (m : dict)
    (name : string) :
  ~ In name (map fst table) -> dict_get (kwargs_of table m) name = None.
Proof.
  induction table as [|[n k] rest IH]; simpl; intros H; [reflexivity|].
  destruct (dict_get m k); simpl.
  - destruct (String.eqb_spec n name) as [->|_]; [exfalso; auto | auto].
  - auto.
Qed.

Lemma kwargs_of_get (table : list (string * string)) (m : dict)
    (name key : string) :
  NoDup (map fst table) -> In (name, key) table ->
  dict_get (kwargs_of table m) name = dict_get m key.
Proof.
  induction table as [|[n k] rest IH]; intros Hnd Hin; [contradiction|].
  simpl in Hnd. inversion Hnd as [|? ? Hn Hrest]; subst. simpl.
  destruct Hin as [Heq|Hin].
  - inversion Heq; subst. destruct (dict_get m key) eqn:Hget; simpl.
    + rewrite String.eqb_refl. reflexivity.
    + apply kwargs_of_absent. exact Hn.
  - assert (n <> name) as Hne.
    { intros ->. apply Hn. apply (in_map fst) in Hin. exact Hin. }
    destruct (dict_get m k); simpl.
    + destruct (String.eqb_spec n name); [contradiction | auto].
    + auto.
Qed.

Lemma kwargs_of_get_or (table : list (string * string)) (m : dict)
    (name key : string) (d : pyval) :
  NoDup (map fst table) -> In (name, key) table ->
  get_or (kwargs_of table m) name d = get_or m key d.
Proof.
  intros Hnd Hin. unfold get_or. rewrite (@kwargs_of_get _ m _ _ Hnd Hin).
  reflexivity.
Qed.

Ltac distinct_names := repeat constructor; simpl; intuition discriminate.

(** X1.  A factory reads the declared external keys and nothing else: two
    mappings with the same entries under those keys give the same node or
    the same exception, so an entry under any other key changes nothing. *)
Theorem from_dict_reads_declared_keys (E : Env) (m m' : dict) :
  (same_on (map snd AxisMarker_keys) m m' ->
   fst (AxisMarker.from_dict E m) = fst (AxisMarker.from_dict E m')) /\
  (same_on (map snd PaneBackground_keys) m m' ->
   fst (PaneBackground.from_dict E m) = fst (PaneBackground.from_dict E m')) /\
  (forall k v,
     str_in k (map snd AxisMarker_keys) = false ->
     fst (AxisMarker.from_dict E ((k, v) :: m))
       = fst (AxisMarker.from_dict E m)) /\
  (forall k v,
     str_in k (map snd PaneBackground_keys) = false ->
     fst (PaneBackground.from_dict E ((k, v) :: m))
       = fst (PaneBackground.from_dict E m)).
Proof.
  assert (forall ks k v, str_in k ks = false -> same_on ks ((k, v) :: m) m)
    as Hcons.
  { intros ks k v Hk k' Hk'. simpl.
    destruct (String.eqb_spec k k') as [->|_]; [|reflexivity].
    apply (proj2 (str_in_In _ _)) in Hk'. congruence. }
  assert (forall a b, same_on (map snd AxisMarker_keys) a b ->
            fst (AxisMarker.from_dict E a) = fst (AxisMarker.from_dict E b))
    as HA.
  { intros a b H. rewrite !AxisMarker_from_dict_lookup.
    rewrite !(@same_on_get_or _ a b _ _ H) by (simpl; tauto). reflexivity. }
  assert (forall a b, same_on (map snd PaneBackground_keys) a b ->
            fst (PaneBackground.from_dict E a)
              = fst (PaneBackground.from_dict E b)) as HP.
  { intros a b H. rewrite !PaneBackground_from_dict_lookup.
    rewrite !(@same_on_get_or _ a b _ _ H) by (simpl; tauto). reflexivity. }
  repeat split; auto.
Qed.

Lemma from_dict_reads_declared_keys_witness :
  fst (AxisMarker.from_dict sample_env
         [("width", PInt 2); ("zIndex", PInt 3)])
    = fst (AxisMarker.from_dict sample_env
             [("foo", PStr "bar"); ("width", PInt 2)]) /\
  fst (AxisMarker.from_dict sample_env
         [("width", PInt 2); ("zIndex", PInt 3)])
    = Ok (AxisMarker.Build_t PNone PNone (PInt 2)).
Proof.
  split; [|reflexivity].
  apply (from_dict_reads_declared_keys sample_env).
  intros k Hk. simpl in Hk.
  repeat (destruct Hk as [<-|Hk]; [reflexivity|]). contradiction.
Defined.

(** X2.  A factory returns what the keyword constructor returns on the
    mapping's declared entries under their keyword names: a key that is
    absent falls back on the same default in both, and on the empty mapping
    the factory is the constructor without arguments. *)
Theorem from_dict_is_the_constructor (E : Env) (m : dict) :
  fst (AxisMarker.from_dict E m)
    = AxisMarker.__init__ E (kwargs_of AxisMarker_keys m) /\
  fst (PaneBackground.from_dict E m)
    = PaneBackground.__init__ E (kwargs_of PaneBackground_keys m) /\
  AxisMarker.from_dict E [] = (AxisMarker.__init__ E [], []) /\
  PaneBackground.from_dict E [] = (PaneBackground.__init__ E [], []).
Proof.
  split; [|split; [|split; reflexivity]].
  - rewrite AxisMarker_from_dict_lookup, !AxisMarker_init_eq.
    rewrite (@kwargs_of_get_or AxisMarker_keys m "animation" "animation")
      by first [distinct_names | simpl; tauto].
    rewrite (@kwargs_of_get_or AxisMarker_keys m "color" "color")
      by first [distinct_names | simpl; tauto].
    rewrite (@kwargs_of_get_or AxisMarker_keys m "width" "width")
      by first [distinct_names | simpl; tauto].
    reflexivity.
  - rewrite PaneBackground_from_dict_lookup, !PaneBackground_init_eq.
    cbv zeta.
    rewrite (@kwargs_of_get_or PaneBackground_keys m
               "background_color" "backgroundColor")
      by first [distinct_names | simpl; tauto].
    rewrite (@kwargs_of_get_or PaneBackground_keys m
               "border_color" "borderColor")
      by first [distinct_names | simpl; tauto].
    rewrite (@kwargs_of_get_or PaneBackground_keys m
               "border_width" "borderWidth")
      by first [distinct_names | simpl; tauto].
    rewrite (@kwargs_of_get_or PaneBackground_keys m
               "class_name" "className")
      by first [distinct_names | simpl; tauto].
    rewrite (@kwargs_of_get_or PaneBackground_keys m
               "inner_radius" "innerRadius")
      by first [distinct_names | simpl; tauto].
    rewrite (@kwargs_of_get_or PaneBackground_keys m
               "outer_radius" "outerRadius")
      by first [distinct_names | simpl; tauto].
    rewrite (@kwargs_of_get_or PaneBackground_keys m "shape" "shape")
      by first [distinct_names | simpl; tauto].
    reflexivity.
Qed.

(** ** The untrimmed mapping parses back exactly *)

Lemma AxisMarker_untrimmed_back (E : Env) (n : AxisMarker.t) :
  settled (AxisMarker_schema E) n ->
  AxisMarker.from_dict E (AxisMarker._to_untrimmed_dict n) = (Ok n, []).
Proof.
  intros H. unfold settled, AxisMarker_schema in H. split_schema H.
  rewrite (surjective_pairing (AxisMarker.from_dict E _)).
  rewrite AxisMarker_from_dict_lookup, AxisMarker_init_eq.
  unfold AxisMarker._to_untrimmed_dict, get_or. simpl dict_get.
  cbv beta iota. rewrite Hslot, Hslot0, Hslot1. destruct n; reflexivity.
Qed.

Lemma PaneBackground_untrimmed_back (E : Env) (n : PaneBackground.t) :
  settled (PaneBackground_schema E) n ->
  PaneBackground.from_dict E (PaneBackground_untrimmed n) = (Ok n, []).
Proof.
  intros H. unfold settled, PaneBackground_schema in H. split_schema H.
  rewrite (surjective_pairing (PaneBackground.from_dict E _)).
  rewrite PaneBackground_from_dict_lookup, PaneBackground_init_eq.
  unfold PaneBackground_untrimmed, get_or. simpl dict_get.
  cbv beta iota zeta.
  rewrite Hslot, Hslot0, Hslot1, Hslot2, Hslot3, Hslot4, Hslot5.
  destruct n; reflexivity.
Qed.

(** X3.  Without trimming the round trip is exact: for a node whose slots
    each hold a value its setter stores unchanged, nested Gradient or
    Pattern included, the factory on the untrimmed mapping returns the node
    itself and consumes the mapping, whatever the default table holds; the
    mapping [to_dict] trims is that one. *)
Theorem untrimmed_round_trip (E : Env) :
  (forall n, settled (AxisMarker_schema E) n ->
     AxisMarker.from_dict E (AxisMarker._to_untrimmed_dict n) = (Ok n, [])) /\
  (forall n, settled (PaneBackground_schema E) n ->
     PaneBackground.from_dict E (PaneBackground_untrimmed n) = (Ok n, [])) /\
  (forall n,
     PaneBackground.to_dict n = trim_dict (PaneBackground_untrimmed n)).
Proof.
  split; [exact (@AxisMarker_untrimmed_back E)|].
  split; [exact (@PaneBackground_untrimmed_back E)|reflexivity].
Qed.

Lemma untrimmed_round_trip_witness :
  settled (PaneBackground_schema
             sample_env)
          PaneBackground_with_gradient /\
  PaneBackground.from_dict sample_env
      (PaneBackground_untrimmed PaneBackground_with_gradient)
    = (Ok PaneBackground_with_gradient, []).
Proof.
  assert (settled (PaneBackground_schema
                     sample_env)
                  PaneBackground_with_gradient) as H.
  { unfold settled, PaneBackground_schema.
    repeat (apply Forall_cons; [reflexivity|]). apply Forall_nil. }
  split; [exact H|].
  exact (proj1 (proj2 (untrimmed_round_trip
                         sample_env))
           PaneBackground_with_gradient H).
Defined.

(** ** Keyword arguments built by popping *)

Lemma pop_all_kwargs (table : list (string * string * pyval)) (m : dict) :
  NoDup (map (fun e => snd (fst e)) table) ->
  fst (GenericTypeOptions.pop_all table m)
    = map (fun e => (fst (fst e), get_or m (snd (fst e)) (snd e))) table.
Proof.
  revert m. induction table as [|[[name key] d] table IH]; intros m Hnd;
    simpl; [reflexivity|].
  inversion Hnd as [|? ? Hkey Hrest]; subst.
  specialize (IH (dict_remove m key) Hrest).
  destruct (GenericTypeOptions.pop_all table (dict_remove m key))
    as [kwargs rest].
  simpl in *. rewrite IH. f_equal.
  apply map_ext_in. intros [[n k] d'] Hin. simpl.
  rewrite get_or_remove_other; [reflexivity|].
  intros ->. apply Hkey.
  apply (in_map (fun e => snd (fst e))) in Hin. exact Hin.
Qed.

(** X4.  [_get_kwargs_from_dict] of [GenericTypeOptions] and of
    [WordcloudData] returns every keyword of its table, in the table's
    order and whatever the mapping holds: the value is the mapping's entry
    under the external key, or the table's default when there is none.  The
    mapping is left with its entries under the other keys. *)
Theorem get_kwargs_from_dict_complete (m : dict) :
  GenericTypeOptions._get_kwargs_from_dict m
    = (map (fun e => (fst (fst e), get_or m (snd (fst e)) (snd e)))
           GenericTypeOptions.kwargs_table,
       without (map (fun e => snd (fst e)) GenericTypeOptions.kwargs_table)
               m) /\
  WordcloudData._get_kwargs_from_dict m
    = (map (fun e => (fst (fst e), get_or m (snd (fst e)) (snd e)))
           WordcloudData.kwargs_table,
       without (map (fun e => snd (fst e)) WordcloudData.kwargs_table) m) /\
  keys (fst (GenericTypeOptions._get_kwargs_from_dict m))
    = map (fun e => fst (fst e)) GenericTypeOptions.kwargs_table /\
  keys (fst (WordcloudData._get_kwargs_from_dict m))
    = map (fun e => fst (fst e)) WordcloudData.kwargs_table.
Proof.
  assert (forall table,
            NoDup (map (fun e => snd (fst e)) table) ->
            GenericTypeOptions.pop_all table m
              = (map (fun e => (fst (fst e), get_or m (snd (fst e)) (snd e)))
                     table,
                 without (map (fun e => snd (fst e)) table) m)) as H.
  { intros table Hnd.
    rewrite (surjective_pairing (GenericTypeOptions.pop_all table m)).
    rewrite pop_all_kwargs by exact Hnd. rewrite pop_all_leaves.
    reflexivity. }
  unfold GenericTypeOptions._get_kwargs_from_dict,
    WordcloudData._get_kwargs_from_dict.
  rewrite !H by (vm_compute; distinct_names).
  repeat split; unfold keys; cbn [fst]; rewrite map_map; reflexivity.
Qed.

(** ** What a colour slot can hold *)

Lemma try_color_stores (E : Env) (cls disc : string) (x v : pyval) c1 c2 :
  (is_dict x || is_str x) && py_in disc x = true ->
  try_except (is_ValueError E) (new_obj cls c1)
    (if is_dict x then new_obj cls c2 else validators_string x false) = Ok v ->
  isinstance v cls = true \/
  (exists s, x = PStr s /\ v = PStr s /\ str_contains disc s = true).
Proof.
  intros Hin H.
  assert (forall c, new_obj cls c = Ok v -> isinstance v cls = true) as Hobj.
  { intros c Hc. apply new_obj_Ok in Hc as (a & ->). simpl.
    apply String.eqb_refl. }
  apply try_except_Ok in H as [H|(e & _ & _ & H)]; [eauto|].
  destruct x; simpl in H; eauto; try discriminate.
  right. unfold validators_string in H.
  destruct (py_not (PStr s)); [discriminate|]. inversion H; subst.
  exists s. simpl in Hin. auto.
Qed.

(** X5.  Whatever a colour setter stores is [None], a Gradient, a Pattern,
    or the very string it was given, and then a string with
    ['linearGradient'] or ['patternOptions'] in it: never a number, a list,
    a mapping or any other string. *)
Theorem resolve_color_stores (E : Env) (x v : pyval) :
  resolve_color E x = Ok v ->
  v = PNone \/
  isinstance v "Gradient" = true \/
  isinstance v "Pattern" = true \/
  (exists s, x = PStr s /\ v = PStr s /\
             (str_contains "linearGradient" s = true \/
              str_contains "patternOptions" s = true)).
Proof.
  unfold resolve_color. intros H.
  assert (forall cls c, new_obj cls c = Ok v -> isinstance v cls = true)
    as Hobj.
  { intros cls c Hc. apply new_obj_Ok in Hc as (a & ->). simpl.
    apply String.eqb_refl. }
  destruct (py_not x); [inversion H; auto|].
  destruct (isinstance x "Gradient" || isinstance x "Pattern") eqn:Hi.
  { inversion H; subst. apply orb_true_iff in Hi as [Hi|Hi]; auto. }
  destruct ((is_dict x || is_str x) && py_in "linearGradient" x) eqn:H1.
  { destruct (try_color_stores _ _ _ _ _ _ H1 H) as [Hg|(s & ? & ? & ?)];
      [auto|]. right. right. right. exists s. auto. }
  destruct (is_dict x && py_in "linear_gradient" x); [eauto|].
  destruct ((is_dict x || is_str x) && py_in "patternOptions" x) eqn:H3.
  { destruct (try_color_stores _ _ _ _ _ _ H3 H) as [Hg|(s & ? & ? & ?)];
      [auto|]. right. right. right. exists s. auto. }
  destruct (is_dict x && py_in "pattern_options" x); [eauto 6|].
  discriminate.
Qed.

Lemma resolve_color_stores_witness :
  resolve_color sample_env (PStr "linearGradient(0, 0, 0, 1)")
    = Ok (PStr "linearGradient(0, 0, 0, 1)") /\
  (PStr "linearGradient(0, 0, 0, 1)" = PNone \/
   isinstance (PStr "linearGradient(0, 0, 0, 1)") "Gradient" = true \/
   isinstance (PStr "linearGradient(0, 0, 0, 1)") "Pattern" = true \/
   (exists s, PStr "linearGradient(0, 0, 0, 1)" = PStr s /\
              PStr "linearGradient(0, 0, 0, 1)" = PStr s /\
              (str_contains "linearGradient" s = true \/
               str_contains "patternOptions" s = true))).
Proof.
  split; [reflexivity|].
  exact (@resolve_color_stores sample_env
           (PStr "linearGradient(0, 0, 0, 1)")
           (PStr "linearGradient(0, 0, 0, 1)") eq_refl).
Defined.

(** X6.  A colour setter rejects every truthy value that is neither a
    Gradient, a Pattern, a mapping nor a string (a number, [True], a
    non-empty list) with a [HighchartsValueError] reporting it.  The
    snake-case keys come after the camel-case ones: a mapping with
    ['linear_gradient'] and no ['linearGradient'] goes to [Gradient( **value )],
    one with ['pattern_options'] and none of the other three keys to
    [Pattern( **value )], each outside any [try], so that what the
    constructor raises is what the setter raises; and a mapping with either
    gradient key never stores anything but a Gradient. *)
Theorem resolve_color_rejects_and_orders (E : Env) :
  (forall x,
     truthy x = true -> is_dict x = false -> is_str x = false ->
     isinstance x "Gradient" = false -> isinstance x "Pattern" = false ->
     resolve_color E x = Raise (HighchartsValueError x)) /\
  (forall m,
     dict_has m "linearGradient" = false ->
     dict_has m "linear_gradient" = true ->
     resolve_color E (PDict m) = new_obj "Gradient" (cls_init E "Gradient" m)) /\
  (forall m,
     dict_has m "linearGradient" = false ->
     dict_has m "linear_gradient" = false ->
     dict_has m "patternOptions" = false ->
     dict_has m "pattern_options" = true ->
     resolve_color E (PDict m) = new_obj "Pattern" (cls_init E "Pattern" m)) /\
  (forall m v,
     dict_has m "linearGradient" = true \/
     dict_has m "linear_gradient" = true ->
     resolve_color E (PDict m) = Ok v ->
     isinstance v "Gradient" = true).
Proof.
  assert (forall m, dict_has m "linearGradient" = false ->
            dict_has m "linear_gradient" = true ->
            resolve_color E (PDict m)
              = new_obj "Gradient" (cls_init E "Gradient" m)) as Hsnake.
  { intros m H1 H2. unfold resolve_color, py_not.
    rewrite (dict_has_nonempty _ _ H2). simpl. rewrite H1, H2. reflexivity. }
  split; [|split; [exact Hsnake|split]].
  - intros x Ht Hd Hs Hg Hp. unfold resolve_color, py_not.
    rewrite Ht, Hg, Hp, Hd, Hs. reflexivity.
  - intros m H1 H2 H3 H4. unfold resolve_color, py_not.
    rewrite (dict_has_nonempty _ _ H4). simpl. rewrite H1, H2, H3, H4.
    reflexivity.
  - intros m v Hkey Hv.
    destruct (dict_has m "linearGradient") eqn:H1.
    + rewrite resolve_color_gradient_key in Hv by exact H1.
      exact (try_new_obj_Ok _ _ _ _ Hv).
    + destruct Hkey as [Hkey|Hkey]; [discriminate|].
      rewrite Hsnake in Hv by assumption.
      apply new_obj_Ok in Hv as (a & ->). reflexivity.
Qed.

Lemma resolve_color_rejects_and_orders_witness :
  resolve_color sample_env (PInt 16777215)
    = Raise (HighchartsValueError (PInt 16777215)) /\
  resolve_color sample_env
      (PDict [("linear_gradient", PDict []); ("patternOptions", PDict [])])
    = Ok (PObj "Gradient"
            [("linear_gradient", PDict []); ("patternOptions", PDict [])]).
Proof.
  destruct (resolve_color_rejects_and_orders sample_env)
    as (Hreject & Hsnake & _).
  split.
  - apply Hreject; reflexivity.
  - rewrite Hsnake by reflexivity. reflexivity.
Defined.

(** ** Enumerated slots *)

Lemma shape_value_Ok (x v : pyval) :
  shape_value x = Ok v ->
  v = PNone \/ v = PStr "circle" \/ v = PStr "solid" \/ v = PStr "arc".
Proof.
  unfold shape_value. destruct (py_not x); [intros H; inversion H; auto|].
  intros H. apply bind_Ok in H as (y & _ & H).
  destruct y as [| | | |s| | |]; try discriminate.
  destruct (str_in (lower s) ["circle"; "solid"; "arc"]) eqn:Hin;
    [|discriminate].
  simpl in H. inversion H; subst. apply str_in_In in Hin.
  destruct Hin as [<-|[<-|[<-|[]]]]; auto.
Qed.

(** X7.  [PaneBackground.shape] is an enumeration: after a successful
    assignment the slot holds [None], ['circle'], ['solid'] or ['arc'] and
    the other slots are as they were.  A string is compared in lower case
    and stored in lower case; a string that is none of the three raises a
    [HighchartsValueError] reporting its lower-case form; every falsy value
    unsets the slot; a truthy value that is no string raises the string
    validator's [CannotCoerceError]. *)
Theorem shape_is_enumerated (self : PaneBackground.t) :
  (forall value self',
     PaneBackground.shape_setter self value = Ok self' ->
     exists v, self' = PaneBackground.with_shape self v /\
       (v = PNone \/ v = PStr "circle" \/ v = PStr "solid" \/ v = PStr "arc")) /\
  (forall s,
     str_in (lower s) ["circle"; "solid"; "arc"] = true ->
     PaneBackground.shape_setter self (PStr s)
       = Ok (PaneBackground.with_shape self (PStr (lower s)))) /\
  (forall s,
     s <> "" ->
     str_in (lower s) ["circle"; "solid"; "arc"] = false ->
     PaneBackground.shape_setter self (PStr s)
       = Raise (HighchartsValueError (PStr (lower s)))) /\
  (forall value,
     truthy value = false ->
     PaneBackground.shape_setter self value
       = Ok (PaneBackground.with_shape self PNone)) /\
  (forall value,
     truthy value = true -> is_str value = false ->
     PaneBackground.shape_setter self value = Raise CannotCoerceError).
Proof.
  assert (forall s, s <> "" -> py_not (PStr s) = false) as Hne.
  { intros s Hs. unfold py_not. simpl.
    destruct (String.eqb_spec s ""); [contradiction | reflexivity]. }
  split; [|split; [|split; [|split]]].
  - intros value self' H. rewrite shape_setter_eq in H.
    apply bind_Ok in H as (v & Hv & H). inversion H; subst.
    exists v. split; [reflexivity | exact (shape_value_Ok _ Hv)].
  - intros s Hin.
    assert (s <> "") as Hs by (intros ->; discriminate).
    unfold PaneBackground.shape_setter, validators_string.
    rewrite (Hne s Hs). cbv beta iota delta [bind]. rewrite Hin.
    reflexivity.
  - intros s Hs Hin.
    unfold PaneBackground.shape_setter, validators_string.
    rewrite (Hne s Hs). cbv beta iota delta [bind]. rewrite Hin.
    reflexivity.
  - intros value H. unfold PaneBackground.shape_setter, py_not.
    rewrite H. reflexivity.
  - intros value Ht Hs.
    unfold PaneBackground.shape_setter, validators_string, py_not.
    rewrite Ht. simpl. destruct value; try discriminate; reflexivity.
Qed.

Lemma shape_is_enumerated_witness :
  PaneBackground.shape_setter blank_PaneBackground (PStr "Solid")
    = Ok (PaneBackground.with_shape blank_PaneBackground (PStr "solid")) /\
  PaneBackground.shape_setter blank_PaneBackground (PStr "Hexagon")
    = Raise (HighchartsValueError (PStr "hexagon")).
Proof.
  destruct (shape_is_enumerated blank_PaneBackground)
    as (_ & Haccept & Hreject & _).
  split.
  - exact (Haccept "Solid" eq_refl).
  - apply (Hreject "Hexagon"); [discriminate | reflexivity].
Defined.

Lemma str_in_false (s : string) (l : list string) :
  ~ In s l -> str_in s l = false.
Proof.
  intros H. destruct (str_in s l) eqn:Hin; [|reflexivity].
  apply str_in_In in Hin. contradiction.
Qed.

Lemma py_not_nonempty_str (s : string) : s <> "" -> py_not (PStr s) = false.
Proof.
  intros Hs. unfold py_not. simpl.
  destruct (String.eqb_spec s ""); [contradiction | reflexivity].
Qed.

(** X8.  [GenericTypeOptions.cursor] and [dash_style] are enumerations over
    the constant lists: after a successful assignment the attribute is
    [None] or a member of the list, and a string outside it raises a
    [HighchartsValueError].  [cursor] folds its argument to lower case
    before it looks it up and stores the folded string; [dash_style] looks
    up and stores the string as given. *)
Theorem cursor_and_dash_style_are_enumerated (E : Env)
    (self : GenericTypeOptions.t) :
  (forall value self',
     GenericTypeOptions.cursor_setter E self value = Ok self' ->
     exists v, self' = GenericTypeOptions.setattr self "_cursor" v /\
       (v = PNone \/
        exists s, v = PStr s /\ In s (SUPPORTED_CURSOR_VALUES E))) /\
  (forall s,
     s <> "" -> In (lower s) (SUPPORTED_CURSOR_VALUES E) ->
     GenericTypeOptions.cursor_setter E self (PStr s)
       = Ok (GenericTypeOptions.setattr self "_cursor" (PStr (lower s)))) /\
  (forall s,
     s <> "" -> ~ In (lower s) (SUPPORTED_CURSOR_VALUES E) ->
     GenericTypeOptions.cursor_setter E self (PStr s)
       = Raise (HighchartsValueError (PStr (lower s)))) /\
  (forall value self',
     GenericTypeOptions.dash_style_setter E self value = Ok self' ->
     exists v, self' = GenericTypeOptions.setattr self "_dash_style" v /\
       (v = PNone \/
        exists s, v = PStr s /\ In s (SUPPORTED_DASH_STYLE_VALUES E))) /\
  (forall s,
     s <> "" -> In s (SUPPORTED_DASH_STYLE_VALUES E) ->
     GenericTypeOptions.dash_style_setter E self (PStr s)
       = Ok (GenericTypeOptions.setattr self "_dash_style" (PStr s))) /\
  (forall s,
     s <> "" -> ~ In s (SUPPORTED_DASH_STYLE_VALUES E) ->
     GenericTypeOptions.dash_style_setter E self (PStr s)
       = Raise (HighchartsValueError (PStr s))).
Proof.
  split; [|split; [|split; [|split; [|split]]]].
  - intros value self'. unfold GenericTypeOptions.cursor_setter.
    destruct (py_not value); [intros H; inversion H; eauto|].
    intros H. apply bind_Ok in H as (y & _ & H).
    destruct y as [| | | |s| | |]; try discriminate.
    destruct (str_in (lower s) (SUPPORTED_CURSOR_VALUES E)) eqn:Hin;
      [|discriminate].
    simpl in H. inversion H; subst. apply str_in_In in Hin. eauto 10.
  - intros s Hs Hin. apply (proj2 (str_in_In _ _)) in Hin.
    unfold GenericTypeOptions.cursor_setter, validators_string.
    rewrite (py_not_nonempty_str Hs). cbv beta iota delta [bind].
    rewrite Hin. reflexivity.
  - intros s Hs Hin. apply str_in_false in Hin.
    unfold GenericTypeOptions.cursor_setter, validators_string.
    rewrite (py_not_nonempty_str Hs). cbv beta iota delta [bind].
    rewrite Hin. reflexivity.
  - intros value self'. unfold GenericTypeOptions.dash_style_setter.
    destruct (py_not value); [intros H; inversion H; eauto|].
    intros H. apply bind_Ok in H as (y & _ & H).
    destruct y as [| | | |s| | |]; try discriminate.
    destruct (str_in s (SUPPORTED_DASH_STYLE_VALUES E)) eqn:Hin;
      [|discriminate].
    simpl in H. inversion H; subst. apply str_in_In in Hin. eauto 10.
  - intros s Hs Hin. apply (proj2 (str_in_In _ _)) in Hin.
    unfold GenericTypeOptions.dash_style_setter, validators_string.
    rewrite (py_not_nonempty_str Hs). cbv beta iota delta [bind].
    rewrite Hin. reflexivity.
  - intros s Hs Hin. apply str_in_false in Hin.
    unfold GenericTypeOptions.dash_style_setter, validators_string.
    rewrite (py_not_nonempty_str Hs). cbv beta iota delta [bind].
    rewrite Hin. reflexivity.
Qed.

Lemma cursor_and_dash_style_are_enumerated_witness :
  GenericTypeOptions.cursor_setter sample_env [] (PStr "POINTER")
    = Ok [("_cursor", PStr "pointer")] /\
  GenericTypeOptions.dash_style_setter sample_env [] (PStr "dash")
    = Raise (HighchartsValueError (PStr "dash")).
Proof.
  destruct (cursor_and_dash_style_are_enumerated sample_env [])
    as (_ & Hcursor & _ & _ & _ & Hdash).
  split.
  - apply (Hcursor "POINTER"); [discriminate | simpl; tauto].
  - apply (Hdash "dash"); [discriminate|].
    simpl. intuition discriminate.
Defined.

(** ** Bounds and fallbacks in [GenericTypeOptions] *)

Lemma Qle_bool_false (a b : Q) : (b < a)%Q -> Qle_bool a b = false.
Proof.
  intros H. destruct (Qle_bool a b) eqn:Hle; [|reflexivity].
  apply Qle_bool_iff in Hle. exfalso. exact (Qlt_not_le _ _ H Hle).
Qed.

Lemma Qle_bool_true (a b : Q) : (a <= b)%Q -> Qle_bool a b = true.
Proof. intros H. apply Qle_bool_iff. exact H. Qed.

Lemma inject_Z_lt (a b : Z) : a < b -> (inject_Z a < inject_Z b)%Q.
Proof. intros H. rewrite <- Zlt_Qlt. exact H. Qed.

Lemma inject_Z_le (a b : Z) : a <= b -> (inject_Z a <= inject_Z b)%Q.
Proof. intros H. rewrite <- Zle_Qle. exact H. Qed.

Lemma opacity_setter_number (E : Env) (self : GenericTypeOptions.t)
    (value : pyval) :
  is_number value = true ->
  GenericTypeOptions.opacity_setter E self value =
  if negb (Qle_bool (as_Q value) 1) then Raise MaximumValueError
  else if negb (Qle_bool 0 (as_Q value)) then Raise MinimumValueError
  else Ok (GenericTypeOptions.setattr self "_opacity" (PFloat (as_Q value))).
Proof.
  intros H.
  unfold GenericTypeOptions.opacity_setter, validators_float,
    validators_numeric, check_bounds.
  destruct value; try discriminate;
    destruct (negb (Qle_bool _ 1)); try reflexivity;
    destruct (negb (Qle_bool 0 _)); reflexivity.
Qed.

(** X9.  [GenericTypeOptions.opacity] checks every integer and every
    float of this model, the finite ones, against its bounds: a number above
    1 raises [MaximumValueError], a number below 0 raises
    [MinimumValueError], and a number from 0 to 1 is stored, as a float also
    when it was given as an integer; [None] unsets the attribute. *)
Theorem opacity_is_bounded (E : Env) (self : GenericTypeOptions.t) :
  (forall z, 1 < z ->
     GenericTypeOptions.opacity_setter E self (PInt z)
       = Raise MaximumValueError) /\
  (forall z, z < 0 ->
     GenericTypeOptions.opacity_setter E self (PInt z)
       = Raise MinimumValueError) /\
  (forall z, 0 <= z <= 1 ->
     GenericTypeOptions.opacity_setter E self (PInt z)
       = Ok (GenericTypeOptions.setattr self "_opacity"
               (PFloat (inject_Z z)))) /\
  (forall q, (1 < q)%Q ->
     GenericTypeOptions.opacity_setter E self (PFloat q)
       = Raise MaximumValueError) /\
  (forall q, (q < 0)%Q ->
     GenericTypeOptions.opacity_setter E self (PFloat q)
       = Raise MinimumValueError) /\
  (forall q, (0 <= q)%Q -> (q <= 1)%Q ->
     GenericTypeOptions.opacity_setter E self (PFloat q)
       = Ok (GenericTypeOptions.setattr self "_opacity" (PFloat q))) /\
  GenericTypeOptions.opacity_setter E self PNone
    = Ok (GenericTypeOptions.setattr self "_opacity" PNone).
Proof.
  assert (forall v, is_number v = true -> (1 < as_Q v)%Q ->
            GenericTypeOptions.opacity_setter E self v
              = Raise MaximumValueError) as Habove.
  { intros v Hv H. rewrite opacity_setter_number by exact Hv.
    rewrite (@Qle_bool_false _ _ H). reflexivity. }
  assert (forall v, is_number v = true -> (as_Q v < 0)%Q ->
            GenericTypeOptions.opacity_setter E self v
              = Raise MinimumValueError) as Hbelow.
  { intros v Hv H. rewrite opacity_setter_number by exact Hv.
    rewrite Qle_bool_true.
    - rewrite (@Qle_bool_false _ _ H). reflexivity.
    - apply Qlt_le_weak. apply (Qlt_trans _ 0); [exact H | reflexivity]. }
  assert (forall v, is_number v = true ->
            (0 <= as_Q v)%Q -> (as_Q v <= 1)%Q ->
            GenericTypeOptions.opacity_setter E self v
              = Ok (GenericTypeOptions.setattr self "_opacity"
                      (PFloat (as_Q v)))) as Hin.
  { intros v Hv H0 H1. rewrite opacity_setter_number by exact Hv.
    rewrite !Qle_bool_true by assumption. reflexivity. }
  split; [|split; [|split; [|split; [|split; [|split; [|reflexivity]]]]]].
  - intros z Hz. apply (Habove (PInt z)); [reflexivity|].
    exact (@inject_Z_lt _ _ Hz).
  - intros z Hz. apply (Hbelow (PInt z)); [reflexivity|].
    exact (@inject_Z_lt _ _ Hz).
  - intros z [H0 H1]. apply (Hin (PInt z)); [reflexivity| |].
    + exact (@inject_Z_le _ _ H0).
    + exact (@inject_Z_le _ _ H1).
  - intros q Hq. exact (Habove (PFloat q) eq_refl Hq).
  - intros q Hq. exact (Hbelow (PFloat q) eq_refl Hq).
  - intros q H0 H1. exact (Hin (PFloat q) eq_refl H0 H1).
Qed.

Lemma opacity_is_bounded_witness :
  GenericTypeOptions.opacity_setter sample_env [] (PInt 2)
    = Raise MaximumValueError /\
  GenericTypeOptions.opacity_setter sample_env [] (PInt 1)
    = Ok [("_opacity", PFloat 1)] /\
  GenericTypeOptions.opacity_setter sample_env [] (PFloat (1 # 2))
    = Ok [("_opacity", PFloat (1 # 2))].
Proof.
  destruct (opacity_is_bounded sample_env [])
    as (Hmax & _ & Hint & _ & _ & Hfloat & _).
  split; [|split].
  - apply Hmax. lia.
  - apply (Hint 1). lia.
  - apply Hfloat; discriminate.
Defined.

Lemma or_else_cases (v d : pyval) :
  GenericTypeOptions.or_else v d = d \/
  (GenericTypeOptions.or_else v d = v /\ truthy v = true).
Proof.
  unfold GenericTypeOptions.or_else. destruct (truthy v); auto.
Qed.

Lemma validators_numeric_number (E : Env) (x v : pyval)
    (allow_empty : bool) (minimum maximum : option Q) :
  validators_numeric E x allow_empty minimum maximum = Ok v ->
  v = PNone \/ is_number v = true.
Proof.
  assert (forall y, is_number y = true ->
            check_bounds minimum maximum y = Ok v -> is_number v = true)
    as Hb.
  { intros y Hy. unfold check_bounds.
    destruct (match maximum with Some _ => _ | None => _ end);
      [discriminate|].
    destruct (match minimum with Some _ => _ | None => _ end);
      [discriminate|].
    intros H. inversion H; subst. exact Hy. }
  destruct x; simpl; try discriminate.
  - unfold empty_or. destruct allow_empty; [|discriminate].
    intros H. inversion H. auto.
  - intros H. right. exact (Hb (PBool b) eq_refl H).
  - intros H. right. exact (Hb (PInt z) eq_refl H).
  - intros H. right. exact (Hb (PFloat q) eq_refl H).
  - destruct (float_of_str E s) as [q|]; [|discriminate].
    intros H. right. exact (Hb (PFloat q) eq_refl H).
Qed.

(** X10.  Three attributes of [GenericTypeOptions] fall back on a value
    rather than on [None].  After a successful assignment [threshold] holds
    the enforced null, [0], or a truthy number, the one [validators.numeric]
    returned; [turbo_threshold] holds [0] or the truthy value
    [validators.integer] returned for a minimum of 0; [custom] holds [{}]
    or the truthy value [validators.dict] returned.  [threshold] stores
    every integer as given and raises [CannotCoerceError] on an argument
    that is neither the enforced null, [None], a number nor a string.  Every
    falsy argument gives [turbo_threshold] the value [0] and [custom] the
    empty mapping, and [None] gives [threshold] the value [0] unless [None]
    compares equal to the enforced null. *)
Theorem fallbacks_instead_of_None (E : Env) (self : GenericTypeOptions.t) :
  (forall value self',
     GenericTypeOptions.threshold_setter E self value = Ok self' ->
     exists v, self' = GenericTypeOptions.setattr self "_threshold" v /\
       (v = EnforcedNull E \/ v = PInt 0 \/
        (truthy v = true /\ is_number v = true /\
         validators_numeric E value true None None = Ok v))) /\
  (forall z,
     is_EnforcedNull E (PInt z) = false ->
     GenericTypeOptions.threshold_setter E self (PInt z)
       = Ok (GenericTypeOptions.setattr self "_threshold" (PInt z))) /\
  (forall value,
     is_EnforcedNull E value = false ->
     is_None value = false -> is_number value = false ->
     is_str value = false ->
     GenericTypeOptions.threshold_setter E self value
       = Raise CannotCoerceError) /\
  (forall value self',
     GenericTypeOptions.turbo_threshold_setter E self value = Ok self' ->
     exists v, self' = GenericTypeOptions.setattr self "_turbo_threshold" v /\
       (v = PInt 0 \/
        (truthy v = true /\ truthy value = true /\
         validators_integer E value true (Some 0%Q) = Ok v))) /\
  (forall value self',
     GenericTypeOptions.custom_setter E self value = Ok self' ->
     exists v, self' = GenericTypeOptions.setattr self "_custom" v /\
       (v = PDict [] \/
        (truthy v = true /\ validators_dict E value true = Ok v))) /\
  (forall value,
     truthy value = false ->
     GenericTypeOptions.turbo_threshold_setter E self value
       = Ok (GenericTypeOptions.setattr self "_turbo_threshold" (PInt 0)) /\
     GenericTypeOptions.custom_setter E self value
       = Ok (GenericTypeOptions.setattr self "_custom" (PDict []))) /\
  (is_EnforcedNull E PNone = false ->
   GenericTypeOptions.threshold_setter E self PNone
     = Ok (GenericTypeOptions.setattr self "_threshold" (PInt 0))).
Proof.
  split; [|split; [|split; [|split; [|split; [|split]]]]].
  - intros value self'. unfold GenericTypeOptions.threshold_setter.
    destruct (is_EnforcedNull E value); [intros H; inversion H; eauto|].
    intros H. apply bind_Ok in H as (v & Hv & H). inversion H; subst.
    eexists. split; [reflexivity|].
    destruct (or_else_cases v (PInt 0)) as [-> | [-> Ht]]; auto.
    right. right. split; [exact Ht|]. split; [|exact Hv].
    destruct (@validators_numeric_number _ _ _ _ _ _ Hv) as [-> | Hn];
      [discriminate | exact Hn].
  - intros z Hz. unfold GenericTypeOptions.threshold_setter. rewrite Hz.
    simpl. unfold GenericTypeOptions.or_else. simpl.
    destruct (Z.eqb_spec z 0) as [->|]; reflexivity.
  - intros value He Hnone Hnum Hstr.
    unfold GenericTypeOptions.threshold_setter. rewrite He.
    destruct value; try discriminate; reflexivity.
  - intros value self'. unfold GenericTypeOptions.turbo_threshold_setter.
    unfold py_not. destruct (truthy value) eqn:Hvalue; simpl;
      [|intros H; inversion H; eauto].
    intros H. apply bind_Ok in H as (v & Hv & H). inversion H; subst.
    eexists. split; [reflexivity|].
    destruct (or_else_cases v (PInt 0)) as [-> | [-> Ht]]; auto.
  - intros value self'. unfold GenericTypeOptions.custom_setter.
    intros H. apply bind_Ok in H as (v & Hv & H). inversion H; subst.
    eexists. split; [reflexivity|].
    destruct (or_else_cases v (PDict [])) as [-> | [-> Ht]]; auto.
  - intros value Hv.
    unfold GenericTypeOptions.turbo_threshold_setter,
      GenericTypeOptions.custom_setter, validators_dict, py_not.
    rewrite Hv. split; reflexivity.
  - intros Hn. unfold GenericTypeOptions.threshold_setter. rewrite Hn.
    reflexivity.
Qed.

Lemma fallbacks_instead_of_None_witness :
  is_EnforcedNull sample_env PNone = false /\
  GenericTypeOptions.threshold_setter sample_env [] PNone
    = Ok [("_threshold", PInt 0)] /\
  GenericTypeOptions.threshold_setter sample_env [] (PInt (-5))
    = Ok [("_threshold", PInt (-5))] /\
  GenericTypeOptions.threshold_setter sample_env [] (PList [PInt 1])
    = Raise CannotCoerceError /\
  GenericTypeOptions.custom_setter sample_env [] (PStr "")
    = Ok [("_custom", PDict [])].
Proof.
  destruct (fallbacks_instead_of_None sample_env [])
    as (_ & Hint & Hreject & _ & _ & Hfalsy & Hnone).
  split; [reflexivity|]. split; [|split; [|split]].
  - apply Hnone. reflexivity.
  - apply (Hint (-5)). reflexivity.
  - apply (Hreject (PList [PInt 1])); reflexivity.
  - apply (Hfalsy (PStr "")). reflexivity.
Defined.

(** ** Zero in radius, size and numeric slots *)

Lemma radius_value_falsy (E : Env) (value : pyval) :
  truthy value = false -> PaneBackground.radius_value E value = Ok PNone.
Proof.
  intros Hv. unfold PaneBackground.radius_value.
  destruct (is_None value || eq_empty_str value); [reflexivity|].
  unfold validators_string, py_not. rewrite Hv. reflexivity.
Qed.

Lemma radius_value_str (E : Env) (s : string) :
  s <> "" -> PaneBackground.radius_value E (PStr s) = Ok (PStr s).
Proof.
  intros Hs. unfold PaneBackground.radius_value. simpl.
  destruct (String.eqb_spec s ""); [contradiction|]. simpl.
  unfold validators_string. rewrite (py_not_nonempty_str Hs). reflexivity.
Qed.

Lemma validators_string_not_str (value : pyval) (allow_empty : bool) :
  truthy value = true -> is_str value = false ->
  validators_string value allow_empty = Raise CannotCoerceError.
Proof.
  intros Hv Hs. unfold validators_string, py_not. rewrite Hv. simpl.
  destruct value; try reflexivity. discriminate.
Qed.

Lemma radius_value_not_str (E : Env) (value : pyval) :
  CannotCoerceError_is_ValueError E = false ->
  truthy value = true -> is_str value = false ->
  PaneBackground.radius_value E value = Raise CannotCoerceError.
Proof.
  intros HE Hv Hs. unfold PaneBackground.radius_value.
  replace (is_None value || eq_empty_str value) with false
    by (destruct value; try reflexivity; discriminate).
  rewrite (@validators_string_not_str _ true Hv Hs). simpl. rewrite HE.
  reflexivity.
Qed.

(** X11.  The radius slots of [PaneBackground] and the size slots of [Pane]
    drop zero and keep strings, each setter writing its own slot: every
    falsy argument, [0] among them, stores [None], and a non-empty string is
    stored as given.  A truthy argument that is no string is refused by the
    string validation tried first with a [CannotCoerceError]; where that
    class is no [ValueError], as in validator_collection, the
    [except ValueError] lets it through, the numeric validation is never
    tried, and the setter raises: a radius of [50] is not stored.  The plain
    numeric slots keep zero: [border_width], [end_angle] and [start_angle]
    store every integer as given. *)
Theorem radius_and_size_drop_zero (E : Env) :
  (forall value,
     truthy value = false ->
     (forall self, PaneBackground.inner_radius_setter E self value
        = Ok (PaneBackground.with_inner_radius self PNone)) /\
     (forall self, PaneBackground.outer_radius_setter E self value
        = Ok (PaneBackground.with_outer_radius self PNone)) /\
     (forall self, Pane.size_setter E self value
        = Ok (Pane.with_size self PNone)) /\
     (forall self, Pane.inner_size_setter E self value
        = Ok (Pane.with_inner_size self PNone))) /\
  (forall s,
     s <> "" ->
     (forall self, PaneBackground.inner_radius_setter E self (PStr s)
        = Ok (PaneBackground.with_inner_radius self (PStr s))) /\
     (forall self, PaneBackground.outer_radius_setter E self (PStr s)
        = Ok (PaneBackground.with_outer_radius self (PStr s))) /\
     (forall self, Pane.size_setter E self (PStr s)
        = Ok (Pane.with_size self (PStr s))) /\
     (forall self, Pane.inner_size_setter E self (PStr s)
        = Ok (Pane.with_inner_size self (PStr s)))) /\
  (CannotCoerceError_is_ValueError E = false ->
   forall value,
     truthy value = true -> is_str value = false ->
     (forall self, PaneBackground.inner_radius_setter E self value
        = Raise CannotCoerceError) /\
     (forall self, PaneBackground.outer_radius_setter E self value
        = Raise CannotCoerceError) /\
     (forall self, Pane.size_setter E self value
        = Raise CannotCoerceError) /\
     (forall self, Pane.inner_size_setter E self value
        = Raise CannotCoerceError)) /\
  (forall z,
     (forall self, PaneBackground.border_width_setter E self (PInt z)
        = Ok (PaneBackground.with_border_width self (PInt z))) /\
     (forall self, Pane.end_angle_setter E self (PInt z)
        = Ok (Pane.with_end_angle self (PInt z))) /\
     (forall self, Pane.start_angle_setter E self (PInt z)
        = Ok (Pane.with_start_angle self (PInt z)))).
Proof.
  split; [|split; [|split]].
  - intros value Hv.
    unfold PaneBackground.inner_radius_setter,
      PaneBackground.outer_radius_setter, Pane.size_setter,
      Pane.inner_size_setter, py_not.
    rewrite (@radius_value_falsy E _ Hv), Hv. repeat split.
  - intros s Hs.
    unfold PaneBackground.inner_radius_setter,
      PaneBackground.outer_radius_setter, Pane.size_setter,
      Pane.inner_size_setter.
    rewrite (@radius_value_str E _ Hs), (py_not_nonempty_str Hs).
    unfold validators_string. rewrite (py_not_nonempty_str Hs).
    repeat split.
  - intros HE value Hv Hs.
    unfold PaneBackground.inner_radius_setter,
      PaneBackground.outer_radius_setter, Pane.size_setter,
      Pane.inner_size_setter, py_not.
    rewrite (@radius_value_not_str E _ HE Hv Hs), Hv.
    rewrite (@validators_string_not_str _ false Hv Hs). simpl. rewrite HE.
    repeat split.
  - intros z. repeat split.
Qed.

Lemma radius_and_size_drop_zero_witness :
  PaneBackground.inner_radius_setter sample_env blank_PaneBackground (PInt 0)
    = Ok (PaneBackground.with_inner_radius blank_PaneBackground PNone) /\
  PaneBackground.outer_radius_setter sample_env blank_PaneBackground
      (PStr "105%")
    = Ok (PaneBackground.with_outer_radius blank_PaneBackground
            (PStr "105%")) /\
  PaneBackground.inner_radius_setter sample_env blank_PaneBackground
      (PInt 50)
    = Raise CannotCoerceError /\
  Pane.size_setter sample_env blank_Pane (PInt 85)
    = Raise CannotCoerceError /\
  PaneBackground.border_width_setter sample_env blank_PaneBackground
      (PInt 0)
    = Ok (PaneBackground.with_border_width blank_PaneBackground (PInt 0)).
Proof.
  destruct (radius_and_size_drop_zero sample_env)
    as (Hfalsy & Hstr & Hother & Hnum).
  split; [|split; [|split; [|split]]].
  - apply (Hfalsy (PInt 0)). reflexivity.
  - apply (Hstr "105%"). discriminate.
  - apply (Hother eq_refl (PInt 50)); reflexivity.
  - apply (Hother eq_refl (PInt 85)); reflexivity.
  - apply (Hnum 0).
Defined.

(** ** [GenericTypeOptions.keys] *)

Lemma mapM_nonempty_strings (xs ys : list pyval) :
  mapM (fun x => validators_string x false) xs = Ok ys ->
  ys = xs /\ Forall (fun y => exists s, y = PStr s /\ s <> "") xs.
Proof.
  revert ys. induction xs as [|x xs IH]; simpl; intros ys H.
  - inversion H. auto.
  - apply bind_Ok in H as (y & Hy & H).
    apply bind_Ok in H as (ys' & Hys & H). inversion H; subst.
    destruct (IH _ Hys) as [-> Hall].
    unfold validators_string, empty_or in Hy.
    destruct (py_not x) eqn:Hx; [discriminate|].
    destruct x; try discriminate. inversion Hy; subst.
    split; [reflexivity|]. constructor; [|exact Hall].
    exists s. split; [reflexivity|]. intros ->. discriminate.
Qed.

Lemma mapM_of_nonempty_strings (xs : list pyval) :
  Forall (fun y => exists s, y = PStr s /\ s <> "") xs ->
  mapM (fun x => validators_string x false) xs = Ok xs.
Proof.
  induction 1 as [|x xs (s & -> & Hs) _ IH]; simpl; [reflexivity|].
  unfold validators_string at 1. rewrite (py_not_nonempty_str Hs).
  simpl. rewrite IH. reflexivity.
Qed.

(** X12.  [GenericTypeOptions.keys] holds [None] or a list of non-empty
    strings: a truthy argument is stored as the list of its items exactly
    when every item is a non-empty string, a falsy argument unsets the
    attribute, and nothing is stored when an item is anything else. *)
Theorem keys_are_nonempty_strings (E : Env) (self : GenericTypeOptions.t) :
  (forall value self',
     GenericTypeOptions.keys_setter E self value = Ok self' ->
     (truthy value = false /\
      self' = GenericTypeOptions.setattr self "_keys" PNone) \/
     (exists xs,
        validators_iterable E value = Ok xs /\
        Forall (fun y => exists s, y = PStr s /\ s <> "") xs /\
        self' = GenericTypeOptions.setattr self "_keys" (PList xs))) /\
  (forall value xs,
     truthy value = true ->
     validators_iterable E value = Ok xs ->
     Forall (fun y => exists s, y = PStr s /\ s <> "") xs ->
     GenericTypeOptions.keys_setter E self value
       = Ok (GenericTypeOptions.setattr self "_keys" (PList xs))) /\
  (forall value xs,
     truthy value = true ->
     validators_iterable E value = Ok xs ->
     ~ Forall (fun y => exists s, y = PStr s /\ s <> "") xs ->
     returns (GenericTypeOptions.keys_setter E self value) = false).
Proof.
  split; [|split].
  - intros value self'. unfold GenericTypeOptions.keys_setter, py_not.
    destruct (truthy value); simpl; [|intros H; inversion H; auto].
    intros H. apply bind_Ok in H as (xs & Hxs & H).
    apply bind_Ok in H as (ys & Hys & H). inversion H; subst.
    destruct (mapM_nonempty_strings _ Hys) as [-> Hall].
    right. exists xs. unfold py_not. auto.
  - intros value xs Hv Hxs Hall.
    unfold GenericTypeOptions.keys_setter, py_not. rewrite Hv. simpl.
    rewrite Hxs. simpl. rewrite (mapM_of_nonempty_strings Hall).
    reflexivity.
  - intros value xs Hv Hxs Hall.
    unfold GenericTypeOptions.keys_setter, py_not. rewrite Hv. simpl.
    rewrite Hxs. simpl.
    destruct (mapM (fun x => validators_string x false) xs) as [ys|e] eqn:Hm;
      [|reflexivity].
    exfalso. apply Hall. exact (proj2 (mapM_nonempty_strings _ Hm)).
Qed.

Lemma keys_are_nonempty_strings_witness :
  GenericTypeOptions.keys_setter sample_env []
      (PList [PStr "x"; PStr "y"])
    = Ok [("_keys", PList [PStr "x"; PStr "y"])] /\
  returns (GenericTypeOptions.keys_setter sample_env []
             (PList [PStr "x"; PInt 1])) = false.
Proof.
  destruct (keys_are_nonempty_strings sample_env [])
    as (_ & Hok & Hbad).
  split.
  - apply Hok; [reflexivity | reflexivity |].
    repeat constructor; eexists; (split; [reflexivity | discriminate]).
  - apply (Hbad (PList [PStr "x"; PInt 1]) [PStr "x"; PInt 1]);
      [reflexivity | reflexivity |].
    intros H. inversion H as [|? ? _ H']; subst.
    inversion H' as [|? ? (s & Hs & _) _]; subst. discriminate.
Defined.

(** ** An explicit [None] is not an absent keyword *)

(** X13.  In [PaneBackground]'s constructor an explicit [None] and an
    absent keyword differ: with every keyword given as [None] every slot is
    [None], whatever [DEFAULT_PANE_BACKGROUND] holds; with no keyword each
    slot is what its setter makes of the slot's default, and the
    constructor raises when a setter rejects its default. *)
Theorem explicit_None_is_not_absent (E : Env) :
  PaneBackground.__init__ E unset_kwargs = Ok blank_PaneBackground /\
  PaneBackground.__init__ E []
    = PaneBackground_reparsed E blank_PaneBackground /\
  (forall n, PaneBackground.__init__ E [] = Ok n ->
     refilled E blank_PaneBackground n).
Proof.
  assert (PaneBackground.__init__ E []
            = PaneBackground_reparsed E blank_PaneBackground) as H0.
  { rewrite PaneBackground_init_eq. reflexivity. }
  split; [reflexivity|]. split; [exact H0|].
  intros n Hn. apply reparsed_refilled. rewrite <- H0. exact Hn.
Qed.

Lemma explicit_None_is_not_absent_witness :
  PaneBackground.__init__ sample_env unset_kwargs = Ok blank_PaneBackground /\
  PaneBackground.__init__ sample_env []
    = Raise (HighchartsValueError (PStr "#cccccc")).
Proof.
  destruct (explicit_None_is_not_absent sample_env) as (Hnone & Habsent & _).
  split; [exact Hnone|]. rewrite Habsent. reflexivity.
Defined.
